(** * FalkorDBTools: the graph-database toolkit of agno/tools/falkordb.py

    A shallow embedding of the [FalkorDBTools] class: its constructor
    ([__init__]) and its four tool methods ([list_labels],
    [list_relationship_types], [get_schema], [run_cypher_query]), followed
    by the properties the specification states about them.

    Python objects are records, the [falkordb] client is a record of
    methods (what the unit tests replace by mocks), exceptions are an
    explicit result type, and the methods run in a state-and-exception
    monad whose state holds [self] and the log. *)

From stdpp Require Import gmap strings list fin_maps.
From Stdlib Require Import ZArith Ascii.

Set Warnings "-register-all".
Set Default Proof Using "Type".

(** ** Python values *)

(** The values that travel through the toolkit: cells of result rows, the
    lists the tools return, and the dictionaries built from them.  A Python
    [dict] with string keys is a finite map: equality of dictionaries does
    not look at insertion order. *)
Inductive value : Type :=
| VNone
| VBool (b : bool)
| VInt (z : Z)
| VStr (s : string)
| VList (l : list value)
| VDict (d : gmap string value).

(** ** Exceptions *)

(** Instances of Python's [Exception]: what the client library raises,
    what [record[i]] raises out of range and what [int] raises on a string
    that is no integer literal.  Every one of them is caught by
    [except Exception]. *)
Inductive exn : Type :=
| Exception (msg : string)
| IndexError (msg : string)
| ValueError (msg : string).

(** [str(e)], as the f-strings of the log messages render it. *)
Definition str (e : exn) : string :=
  match e with
  | Exception msg | IndexError msg | ValueError msg => msg
  end.

(** A call either returns or raises. *)
Inductive result (A : Type) : Type :=
| Ok (a : A)
| Raise (e : exn).
Arguments Ok {A} a.
Arguments Raise {A} e.

#[global] Instance result_ret : MRet result := fun A a => Ok a.
#[global] Instance result_fmap : FMap result := fun A B f r =>
  match r with
  | Ok a => Ok (f a)
  | Raise e => Raise e
  end.
#[global] Instance result_bind : MBind result := fun A B k r =>
  match r with
  | Ok a => k a
  | Raise e => Raise e
  end.

(** ** The state-and-exception monad *)

(** A computation over a state [St]: it returns or raises, and the state it
    leaves behind is kept in both cases (a Python exception does not undo
    side effects). *)
Definition M (St A : Type) : Type := St -> result A * St.

#[global] Instance M_ret {St} : MRet (M St) := fun A a s => (Ok a, s).
#[global] Instance M_bind {St} : MBind (M St) := fun A B k m s =>
  match m s with
  | (Ok a, s') => k a s'
  | (Raise e, s') => (Raise e, s')
  end.

Definition raise {St A} (e : exn) : M St A := fun s => (Raise e, s).

(** A pure call of the client or of a builtin, run inside [M]. *)
Definition lift {St A} (r : result A) : M St A := fun s => (r, s).

(** [try: body  except Exception as e: handler e]. *)
Definition try_except {St A} (body : M St A) (handler : exn -> M St A) : M St A :=
  fun s =>
    match body s with
    | (Ok a, s') => (Ok a, s')
    | (Raise e, s') => handler e s'
    end.

(** ** Logging (agno.utils.log) *)

Inductive level : Type := DEBUG | ERROR.

Definition log_record : Type := level * string.

(** A state that carries the log. *)
Class Logging (St : Type) : Type := emit : log_record -> St -> St.

#[global] Instance list_logging : Logging (list log_record) :=
  fun r records => records ++ [r].

Definition log_debug `{Logging St} (msg : string) : M St unit :=
  fun s => (Ok tt, emit (DEBUG, msg) s).

Definition logger_error `{Logging St} (msg : string) : M St unit :=
  fun s => (Ok tt, emit (ERROR, msg) s).

(** ** Python builtins used by the toolkit *)

(** Truth value testing, as [x or y] and [if x:] use it: [None], the empty
    string, zero and the empty list are false. *)
Class Truthy (A : Type) : Type := truthy : A -> bool.

#[global] Instance string_truthy : Truthy string :=
  fun s => negb (String.eqb s "").
#[global] Instance Z_truthy : Truthy Z :=
  fun n => negb (Z.eqb n 0).
#[global] Instance list_truthy {A} : Truthy (list A) :=
  fun l => match l with [] => false | _ :: _ => true end.
#[global] Instance option_truthy `{Truthy A} : Truthy (option A) :=
  fun o => match o with Some a => truthy a | None => false end.

(** [x or y] where [y] is never [None]. *)
Definition or_default `{Truthy A} (x : option A) (y : A) : A :=
  match x with
  | Some a => if truthy a then a else y
  | None => y
  end.

(** [x or y] where [y] may be [None]. *)
Definition or_optional `{Truthy A} (x y : option A) : option A :=
  if truthy x then x else y.

(** [x or y] where evaluating [y] may raise: [y] is only evaluated, and can
    only raise, when [x] is false. *)
Definition or_else `{Truthy A} (x : option A) (y : result A) : result A :=
  match x with
  | Some a => if truthy a then Ok a else y
  | None => y
  end.

(** [record[i]] on a list, for an index that is not negative. *)
Definition getitem (record : list value) (i : nat) : result value :=
  match record !! i with
  | Some v => Ok v
  | None => Raise (IndexError "list index out of range")
  end.

(** [dict(pairs)]: a later pair overwrites an earlier one with the same key. *)
Definition dict_of_pairs (pairs : list (string * value)) : gmap string value :=
  foldl (fun d kv => <[kv.1 := kv.2]> d) ∅ pairs.

(** [enumerate(l)], counting from [n]. *)
Fixpoint enumerate_from {A} (n : nat) (l : list A) : list (nat * A) :=
  match l with
  | [] => []
  | x :: l' => (n, x) :: enumerate_from (S n) l'
  end.

Definition enumerate {A} (l : list A) : list (nat * A) := enumerate_from 0 l.

(** A list comprehension [[f x for x in l]] whose element expression may
    raise: the first exception ends it. *)
Fixpoint comprehension {A B} (f : A -> result B) (l : list A) : result (list B) :=
  match l with
  | [] => Ok []
  | x :: l' =>
      y ← f x;
      ys ← comprehension f l';
      Ok (y :: ys)
  end.

(** A [for x in l:] loop that updates an accumulator and may raise. *)
Fixpoint for_in {A B} (l : list A) (body : B -> A -> result B) (acc : B) : result B :=
  match l with
  | [] => Ok acc
  | x :: l' =>
      acc' ← body acc x;
      for_in l' body acc'
  end.

(** [os.getenv(key)] and [os.getenv(key, default)] on an environment. *)
Definition getenv (environ : gmap string string) (key : string) : option string :=
  environ !! key.

Definition getenv_default (environ : gmap string string) (key default : string) : string :=
  match environ !! key with
  | Some v => v
  | None => default
  end.

(** ** The falkordb client *)

(** What [graph.query] returns: the column names (absent, or a list that
    may be empty) and the rows. *)
Record QueryResult : Type := {
  header : option (list string);
  result_set : list (list value)
}.

(** A selected graph: its [query] method returns a result or raises. *)
Record Graph : Type := {
  query : string -> result QueryResult
}.

(** A connection handle: its [select_graph] method. *)
Record FalkorDB : Type := {
  select_graph : string -> result Graph
}.

(** The arguments of the call [FalkorDB(host=, port=, username=, password=)]. *)
Record ConnectionParameters : Type := {
  host : string;
  port : Z;
  username : option string;
  password : option string
}.

(** ** The toolkit object *)

(** The bound methods that can be handed to the tool-registration host. *)
Inductive tool : Type :=
| tool_list_labels
| tool_list_relationship_types
| tool_get_schema
| tool_run_cypher_query.

#[global] Instance tool_eq_dec : EqDecision tool.
Proof. solve_decision. Defined.

(** Modelled from the spec: the base class [Toolkit] of agno.tools, which
    is not among the sources.  The tool-registration host accepts a named
    bundle of callables and a symbolic toolkit name; it keeps both and
    advertises exactly that bundle. *)
Record Toolkit : Type := {
  name : string;
  tools : list tool
}.

Definition Toolkit_init (name : string) (tools : list tool) : Toolkit :=
  {| name := name; tools := tools |}.

(** A [FalkorDBTools] instance: a [Toolkit] with the two attributes its own
    constructor sets. *)
Record FalkorDBTools : Type := {
  base :> Toolkit;
  db : FalkorDB;
  graph_name : string
}.

(** The state the methods run in: the instance and the log. *)
Record world : Type := {
  self : FalkorDBTools;
  log : list log_record
}.

#[global] Instance world_logging : Logging world :=
  fun r w => {| self := self w; log := log w ++ [r] |}.

(** Reading an attribute of [self]. *)
Definition attr {A} (field : FalkorDBTools -> A) : M world A :=
  fun w => (Ok (field (self w)), w).

(** The graph a method works on: [self.db.select_graph(self.graph_name)]. *)
Abbreviation selected_graph w :=
  (select_graph (db (self w)) (graph_name (self w))) (only parsing).

(** ** The tool methods *)

Definition list_labels : M world (list value) :=
  try_except
    (log_debug "Listing node labels in FalkorDB database";;
     self_db ← attr db;
     self_graph_name ← attr graph_name;
     graph ← lift (select_graph self_db self_graph_name);
     result ← lift (query graph "CALL db.labels()");
     labels ← lift (comprehension (fun record => getitem record 0) (result_set result));
     mret labels)
    (fun e =>
       logger_error ("Error listing labels: " +:+ str e);;
       mret []).

Definition list_relationship_types : M world (list value) :=
  try_except
    (log_debug "Listing relationship types in FalkorDB database";;
     self_db ← attr db;
     self_graph_name ← attr graph_name;
     graph ← lift (select_graph self_db self_graph_name);
     result ← lift (query graph "CALL db.relationshipTypes()");
     types ← lift (comprehension (fun record => getitem record 0) (result_set result));
     mret types)
    (fun e =>
       logger_error ("Error listing relationship types: " +:+ str e);;
       mret []).

Definition get_schema : M world (list value) :=
  try_except
    (log_debug "Retrieving FalkorDB schema";;
     self_db ← attr db;
     self_graph_name ← attr graph_name;
     graph ← lift (select_graph self_db self_graph_name);
     labels_result ← lift (query graph "CALL db.labels()");
     labels ← lift (comprehension (fun record => getitem record 0) (result_set labels_result));
     rel_types_result ← lift (query graph "CALL db.relationshipTypes()");
     rel_types ← lift (comprehension (fun record => getitem record 0) (result_set rel_types_result));
     let schema_data :=
       [VDict {[ "labels" := VList labels; "relationshipTypes" := VList rel_types ]}] in
     mret schema_data)
    (fun e =>
       logger_error ("Error getting FalkorDB schema: " +:+ str e);;
       mret []).

(** The inner loop of [run_cypher_query]:
    [row_dict = {}; for i, column_name in enumerate(header): row_dict[column_name] = record[i]]. *)
Definition row_dict (columns : list string) (record : list value) : result (gmap string value) :=
  for_in (enumerate columns)
    (fun row_dict '(i, column_name) =>
       v ← getitem record i;
       Ok (<[column_name := v]> row_dict))
    ∅.

Definition run_cypher_query (query_string : string) : M world (list value) :=
  try_except
    (log_debug ("Running Cypher query: " +:+ query_string);;
     self_db ← attr db;
     self_graph_name ← attr graph_name;
     graph ← lift (select_graph self_db self_graph_name);
     result ← lift (query graph query_string);
     if truthy (header result) then
       data ← lift (for_in (result_set result)
                      (fun data record =>
                         d ← row_dict (default [] (header result)) record;
                         Ok (data ++ [VDict d]))
                      []);
       mret data
     else
       mret (VList <$> result_set result))
    (fun e =>
       logger_error ("Error running Cypher query: " +:+ str e);;
       mret []).

(** ** The constructor *)

(** The keyword arguments of [FalkorDBTools(...)].  [None] is an omitted
    argument; the flags have their defaults in [Args.defaults]. *)
Module Args.
Record t : Type := {
  host : option string;
  port : option Z;
  username : option string;
  password : option string;
  graph_name : option string;
  enable_list_labels : bool;
  enable_list_relationships : bool;
  enable_get_schema : bool;
  enable_run_cypher : bool;
  all : bool
}.

Definition defaults : t :=
  {| host := None; port := None; username := None; password := None;
     graph_name := None;
     enable_list_labels := true; enable_list_relationships := true;
     enable_get_schema := true; enable_run_cypher := true;
     all := false |}.
End Args.

Section Construction.

(** The builtin [int] applied to a string, and the client's constructor
    [FalkorDB(host=, port=, username=, password=)], which opens the
    connection. *)
Variable int : string -> result Z.
Variable FalkorDB_connect : ConnectionParameters -> result FalkorDB.

(** "Determine the connection parameters": the four assignments that
    open [__init__]. *)
Definition connection_parameters (a : Args.t) (environ : gmap string string)
    : result ConnectionParameters :=
  let host := or_default (Args.host a) (getenv_default environ "FALKORDB_HOST" "localhost") in
  port ← or_else (Args.port a) (int (getenv_default environ "FALKORDB_PORT" "6379"));
  let username := or_optional (Args.username a) (getenv environ "FALKORDB_USERNAME") in
  let password := or_optional (Args.password a) (getenv environ "FALKORDB_PASSWORD") in
  Ok {| host := host; port := port; username := username; password := password |}.

(** "Register toolkit methods as tools". *)
Definition registered_tools (a : Args.t) : list tool :=
  let tools := [] in
  let tools := if Args.all a || Args.enable_list_labels a
               then tools ++ [tool_list_labels] else tools in
  let tools := if Args.all a || Args.enable_list_relationships a
               then tools ++ [tool_list_relationship_types] else tools in
  let tools := if Args.all a || Args.enable_get_schema a
               then tools ++ [tool_get_schema] else tools in
  let tools := if Args.all a || Args.enable_run_cypher a
               then tools ++ [tool_run_cypher_query] else tools in
  tools.

(** [FalkorDBTools.__init__]: the state is the log; the result is the
    instance the caller receives, or the exception it sees instead. *)
Definition __init__ (a : Args.t) (environ : gmap string string)
    : M (list log_record) FalkorDBTools :=
  parameters ← lift (connection_parameters a environ);
  self_db ← try_except
              (connection ← lift (FalkorDB_connect parameters);
               log_debug "Connected to FalkorDB database";;
               mret connection)
              (fun e =>
                 logger_error ("Failed to connect to FalkorDB: " +:+ str e);;
                 raise e);
  let self_graph_name :=
    or_default (Args.graph_name a) (getenv_default environ "FALKORDB_GRAPH" "agno") in
  let tools := registered_tools a in
  mret {| base := Toolkit_init "falkordb_tools" tools;
          db := self_db; graph_name := self_graph_name |}.

End Construction.

(** ** Test doubles *)

(** Stand-ins for the client and for [int], in the manner of the mocks of
    tests/unit/tools/test_falkordb.py; the concrete examples below run the
    toolkit against them. *)
Module Mock.

(** A graph whose [query] answers from a table of query strings and
    raises on any other query. *)
Definition graph (answers : gmap string QueryResult) : Graph :=
  {| query := fun q =>
       match answers !! q with
       | Some r => Ok r
       | None => Raise (Exception "Query failed")
       end |}.

(** A connection whose [select_graph] hands out the given graph. *)
Definition connection (g : Graph) : FalkorDB :=
  {| select_graph := fun _ => Ok g |}.

(** A connection whose [select_graph] raises. *)
Definition broken_connection : FalkorDB :=
  {| select_graph := fun _ => Raise (Exception "Connection lost") |}.

(** An instance around a connection, with all four tools registered. *)
Definition toolkit (c : FalkorDB) : world :=
  {| self := {| base := Toolkit_init "falkordb_tools"
                          [tool_list_labels; tool_list_relationship_types;
                           tool_get_schema; tool_run_cypher_query];
                db := c; graph_name := "agno" |};
     log := [] |}.

(** A connection that knows one graph by its name and raises for any
    other name. *)
Definition named_connection (graph_name : string) (g : Graph) : FalkorDB :=
  {| select_graph := fun n =>
       if String.eqb n graph_name then Ok g
       else Raise (Exception "Unknown graph") |}.

(** A client constructor that always connects, and one that never does. *)
Definition connect (g : Graph) : ConnectionParameters -> result FalkorDB :=
  fun _ => Ok (connection g).

Definition refuse : ConnectionParameters -> result FalkorDB :=
  fun _ => Raise (Exception "Connection error").

(** [int] on plain decimal literals: an optional sign and ASCII digits.
    (The builtin accepts more: surrounding blanks, underscores.) *)
Definition digit (c : Ascii.ascii) : option Z :=
  let n := nat_of_ascii c in
  if (48 <=? n)%nat && (n <=? 57)%nat then Some (Z.of_nat (n - 48)) else None.

Fixpoint digits (acc : Z) (s : string) : option Z :=
  match s with
  | EmptyString => Some acc
  | String c s' =>
      match digit c with
      | Some d => digits (10 * acc + d)%Z s'
      | None => None
      end
  end.

Definition int (s : string) : result Z :=
  let invalid := Raise (ValueError ("invalid literal for int() with base 10: '" +:+ s +:+ "'")) in
  let magnitude s' :=
    match s' with
    | EmptyString => None
    | _ => digits 0%Z s'
    end in
  match s with
  | String "-" s' => match magnitude s' with Some n => Ok (- n)%Z | None => invalid end
  | String "+" s' => match magnitude s' with Some n => Ok n | None => invalid end
  | _ => match magnitude s with Some n => Ok n | None => invalid end
  end.

End Mock.

(** ** Vocabulary of the specification *)

(** An error raised by the underlying client while a method runs query [q]:
    either [select_graph] raises, or the graph's [query] raises on [q]. *)
Definition client_raises (w : world) (q : string) (e : exn) : Prop :=
  selected_graph w = Raise e
  \/ exists g, selected_graph w = Ok g /\ query g q = Raise e.

(** The precedence as the specification words it: the explicit argument if
    one was given, otherwise the environment variable if it is set,
    otherwise the hard-coded default ([None] for "unset"). *)
Definition spec_precedence {A} (explicit env default : option A) : option A :=
  match explicit with
  | Some x => Some x
  | None =>
      match env with
      | Some v => Some v
      | None => default
      end
  end.

(** An argument that was passed and is true: not [None], not the empty
    string, not 0. *)
Definition given `{Truthy A} (x : option A) : option A :=
  if truthy x then x else None.

(** The capability flag that belongs to a tool. *)
Definition flag (a : Args.t) (t : tool) : bool :=
  match t with
  | tool_list_labels => Args.enable_list_labels a
  | tool_list_relationship_types => Args.enable_list_relationships a
  | tool_get_schema => Args.enable_get_schema a
  | tool_run_cypher_query => Args.enable_run_cypher a
  end.

(** The records a call appended to the log, between the state [w] it
    started in and the state [w'] it left. *)
Definition appended (w w' : world) : list log_record :=
  drop (length (log w)) (log w').

(** The call took its error path: it logged an error. *)
Definition errored (w w' : world) : Prop :=
  exists msg, (ERROR, msg) ∈ appended w w'.

(** What a method may leave in the log: its debug record alone, or its
    debug record and one error record, made of the method's prefix and the
    text of an exception, next to an empty result. *)
Definition log_discipline (debug prefix : string) (w : world)
    (out : result (list value) * world) : Prop :=
  log out.2 = log w ++ [(DEBUG, debug)]
  \/ exists e,
       out.1 = Ok []
       /\ log out.2 = log w ++ [(DEBUG, debug); (ERROR, prefix +:+ str e)].

(** A value is a record (a [dict]), or a raw row (a [list]). *)
Definition is_record (v : value) : Prop :=
  match v with VDict _ => True | _ => False end.

Definition is_raw_row (v : value) : Prop :=
  match v with VList _ => True | _ => False end.

(** The four tools in the order the constructor registers them. *)
Definition registration_order : list tool :=
  [tool_list_labels; tool_list_relationship_types;
   tool_get_schema; tool_run_cypher_query].

(** ** Scenarios *)

(** Concrete databases and arguments on which the statements below are
    evaluated. *)
Module Scenario.

(** Labels [Person], [Movie]; relationship types [ACTED_IN], [DIRECTED]. *)
Definition movies_graph : Graph :=
  Mock.graph
    {[ "CALL db.labels()" :=
         {| header := Some ["label"];
            result_set := [[VStr "Person"]; [VStr "Movie"]] |};
       "CALL db.relationshipTypes()" :=
         {| header := Some ["relationshipType"];
            result_set := [[VStr "ACTED_IN"]; [VStr "DIRECTED"]] |} ]}.

Definition movies : world := Mock.toolkit (Mock.connection movies_graph).

(** The label query answers with a row that has no column. *)
Definition empty_label_row : world :=
  Mock.toolkit (Mock.connection (Mock.graph
    {[ "CALL db.labels()" :=
         {| header := Some ["label"];
            result_set := [[VStr "Person"]; []] |};
       "CALL db.relationshipTypes()" :=
         {| header := Some ["relationshipType"];
            result_set := [[VStr "ACTED_IN"]] |} ]})).

(** The label query answers, the relationship-type query raises. *)
Definition labels_only : world :=
  Mock.toolkit (Mock.connection (Mock.graph
    {[ "CALL db.labels()" :=
         {| header := Some ["label"];
            result_set := [[VStr "Person"]; [VStr "Movie"]] |} ]})).

(** Every query raises. *)
Definition failing : world :=
  Mock.toolkit (Mock.connection (Mock.graph ∅)).

(** Selecting the graph raises. *)
Definition disconnected : world :=
  Mock.toolkit Mock.broken_connection.

(** A query with the header [name], [age] and two full rows. *)
Definition people_query : string :=
  "MATCH (p:Person) RETURN p.name as name, p.age as age".

Definition people : world :=
  Mock.toolkit (Mock.connection (Mock.graph
    {[ people_query :=
         {| header := Some ["name"; "age"];
            result_set := [[VStr "John"; VInt 30]; [VStr "Jane"; VInt 25]] |} ]})).

(** The same header, but the second row lacks the [age] value. *)
Definition people_short_row : world :=
  Mock.toolkit (Mock.connection (Mock.graph
    {[ people_query :=
         {| header := Some ["name"; "age"];
            result_set := [[VStr "John"; VInt 30]; [VStr "Jane"]] |} ]})).

(** A result without header. *)
Definition count_query : string := "MATCH (n) RETURN count(n)".

Definition counts : world :=
  Mock.toolkit (Mock.connection (Mock.graph
    {[ count_query :=
         {| header := None; result_set := [[VInt 1]; [VInt 2]; [VInt 3]] |} ]})).

(** A row with a value beyond the last column. *)
Definition people_long_row : world :=
  Mock.toolkit (Mock.connection (Mock.graph
    {[ people_query :=
         {| header := Some ["name"; "age"];
            result_set := [[VStr "John"; VInt 30; VStr "extra"]] |} ]})).

(** An explicitly empty host while the environment names one. *)
Definition empty_host : Args.t :=
  {| Args.host := Some ""; Args.port := None; Args.username := None;
     Args.password := None; Args.graph_name := None;
     Args.enable_list_labels := true; Args.enable_list_relationships := true;
     Args.enable_get_schema := true; Args.enable_run_cypher := true;
     Args.all := false |}.

Definition environ_with_host : gmap string string :=
  {[ "FALKORDB_HOST" := "db.internal" ]}.

(** Host and graph passed explicitly, the user name taken from the
    environment, the rest left to the defaults. *)
Definition mixed : Args.t :=
  {| Args.host := Some "graph.example"; Args.port := None; Args.username := None;
     Args.password := None; Args.graph_name := Some "custom_graph";
     Args.enable_list_labels := true; Args.enable_list_relationships := true;
     Args.enable_get_schema := true; Args.enable_run_cypher := true;
     Args.all := false |}.

Definition environ_mixed : gmap string string :=
  {[ "FALKORDB_HOST" := "test-host"; "FALKORDB_USERNAME" := "test_user" ]}.

(** The flags of [test_initialization_selective_tools]. *)
Definition selective : Args.t :=
  {| Args.host := Some "localhost"; Args.port := Some 6379%Z;
     Args.username := None; Args.password := None; Args.graph_name := None;
     Args.enable_list_labels := true; Args.enable_list_relationships := false;
     Args.enable_get_schema := false; Args.enable_run_cypher := true;
     Args.all := false |}.

(** No tool enabled. *)
Definition nothing_enabled : Args.t :=
  {| Args.host := Some "localhost"; Args.port := Some 6379%Z;
     Args.username := None; Args.password := None; Args.graph_name := None;
     Args.enable_list_labels := false; Args.enable_list_relationships := false;
     Args.enable_get_schema := false; Args.enable_run_cypher := false;
     Args.all := false |}.

(** A result whose rows are longer than its header, and the same result
    with every row cut to the header's length. *)
Definition long_rows : QueryResult :=
  {| header := Some ["name"; "age"];
     result_set := [[VStr "John"; VInt 30; VStr "extra"]; [VStr "Jane"; VInt 25]] |}.

Definition cut_rows : QueryResult :=
  {| header := Some ["name"; "age"];
     result_set := [[VStr "John"; VInt 30]; [VStr "Jane"; VInt 25]] |}.

(** A malformed port variable. *)
Definition environ_bad_port : gmap string string :=
  {[ "FALKORDB_PORT" := "abc" ]}.

End Scenario.

(** The unit tests of the repository, replayed on the model. *)

Example test_list_labels :
  (list_labels (Mock.toolkit (Mock.connection (Mock.graph
     {[ "CALL db.labels()" :=
          {| header := None; result_set := [[VStr "Person"]; [VStr "Movie"]] |} ]})))).1
  = Ok [VStr "Person"; VStr "Movie"].
Proof. reflexivity. Qed.

Example test_list_labels_runtime_error :
  (list_labels (Mock.toolkit (Mock.connection (Mock.graph ∅)))).1 = Ok [].
Proof. reflexivity. Qed.

Example test_get_schema :
  (get_schema (Mock.toolkit (Mock.connection (Mock.graph
     {[ "CALL db.labels()" :=
          {| header := None; result_set := [[VStr "Person"]; [VStr "Movie"]] |};
        "CALL db.relationshipTypes()" :=
          {| header := None; result_set := [[VStr "ACTED_IN"]; [VStr "DIRECTED"]] |} ]})))).1
  = Ok [VDict {[ "labels" := VList [VStr "Person"; VStr "Movie"];
                 "relationshipTypes" := VList [VStr "ACTED_IN"; VStr "DIRECTED"] ]}].
Proof. reflexivity. Qed.

Example test_run_cypher_query_with_header :
  (run_cypher_query "MATCH (p:Person) RETURN p.name as name, p.age as age"
     (Mock.toolkit (Mock.connection (Mock.graph
        {[ "MATCH (p:Person) RETURN p.name as name, p.age as age" :=
             {| header := Some ["name"; "age"];
                result_set := [[VStr "John"; VInt 30]; [VStr "Jane"; VInt 25]] |} ]})))).1
  = Ok [VDict {[ "name" := VStr "John"; "age" := VInt 30 ]};
        VDict {[ "name" := VStr "Jane"; "age" := VInt 25 ]}].
Proof. reflexivity. Qed.

Example test_run_cypher_query_without_header :
  (run_cypher_query "MATCH (n) RETURN count(n)"
     (Mock.toolkit (Mock.connection (Mock.graph
        {[ "MATCH (n) RETURN count(n)" :=
             {| header := None; result_set := [[VInt 1]; [VInt 2]; [VInt 3]] |} ]})))).1
  = Ok [VList [VInt 1]; VList [VInt 2]; VList [VInt 3]].
Proof. reflexivity. Qed.

Example test_list_relationship_types :
  (list_relationship_types Scenario.movies).1 = Ok [VStr "ACTED_IN"; VStr "DIRECTED"].
Proof. reflexivity. Qed.

Example test_list_relationship_types_error :
  (list_relationship_types Scenario.failing).1 = Ok [].
Proof. reflexivity. Qed.

Example test_get_schema_error :
  (get_schema Scenario.failing).1 = Ok [].
Proof. reflexivity. Qed.

Example test_run_cypher_query_error :
  (run_cypher_query "INVALID QUERY" Scenario.failing).1 = Ok [].
Proof. reflexivity. Qed.

Example test_select_graph_error :
  list_labels Scenario.disconnected
  = (Ok [],
     {| self := self Scenario.disconnected;
        log := [(DEBUG, "Listing node labels in FalkorDB database");
                (ERROR, "Error listing labels: Connection lost")] |}).
Proof. reflexivity. Qed.

Example test_extra_trailing_value :
  (run_cypher_query Scenario.people_query Scenario.people_long_row).1
  = Ok [VDict {[ "name" := VStr "John"; "age" := VInt 30 ]}].
Proof. reflexivity. Qed.

Example test_repeated_column_name :
  row_dict ["n"; "n"] [VInt 1; VInt 2] = Ok {[ "n" := VInt 2 ]}.
Proof. reflexivity. Qed.

Example test_empty_header :
  (run_cypher_query "RETURN 1"
     (Mock.toolkit (Mock.connection (Mock.graph
        {[ "RETURN 1" := {| header := Some []; result_set := [[VInt 1]] |} ]})))).1
  = Ok [VList [VInt 1]].
Proof. reflexivity. Qed.

Example test_initialization_custom_graph :
  graph_name <$> (__init__ Mock.int (Mock.connect Scenario.movies_graph)
                    Scenario.mixed ∅ []).1
  = Ok "custom_graph".
Proof. reflexivity. Qed.

Example test_initialization_default_graph :
  graph_name <$> (__init__ Mock.int (Mock.connect Scenario.movies_graph)
                    Args.defaults ∅ []).1
  = Ok "agno".
Proof. reflexivity. Qed.

Example test_initialization_selective_tools :
  (fun obj : FalkorDBTools => tools obj)
    <$> (__init__ Mock.int (Mock.connect Scenario.movies_graph)
           Scenario.selective ∅ []).1
  = Ok [tool_list_labels; tool_run_cypher_query].
Proof. reflexivity. Qed.

Example test_initialization_invalid_port :
  (__init__ Mock.int (Mock.connect Scenario.movies_graph) Args.defaults
     {[ "FALKORDB_PORT" := "abc" ]} []).1
  = Raise (ValueError "invalid literal for int() with base 10: 'abc'").
Proof. reflexivity. Qed.

Example test_initialization_default_values :
  connection_parameters Mock.int Args.defaults ∅
  = Ok {| host := "localhost"; port := 6379; username := None; password := None |}.
Proof. reflexivity. Qed.

Example test_initialization_with_env_vars :
  connection_parameters Mock.int Args.defaults
    {[ "FALKORDB_HOST" := "test-host"; "FALKORDB_PORT" := "6379";
       "FALKORDB_USERNAME" := "test_user"; "FALKORDB_PASSWORD" := "test_pass" ]}
  = Ok {| host := "test-host"; port := 6379;
          username := Some "test_user"; password := Some "test_pass" |}.
Proof. reflexivity. Qed.

(** ** Running the methods *)

(** Column 0 of every row, when every row has one. *)
Lemma comprehension_first_column (rows : list (list value)) :
  Forall (fun row => row ≠ []) rows ->
  exists column : list value,
    comprehension (fun record => getitem record 0) rows = Ok column
    /\ Forall2 (fun row v => row !! 0%nat = Some v) rows column.
Proof.
  induction 1 as [|row rows Hrow _ [column [IH1 IH2]]].
  - exists []. split; [reflexivity | constructor].
  - destruct row as [|v row]; [congruence|].
    exists (v :: column). split.
    + cbn [comprehension getitem lookup list_lookup mbind result_bind]. rewrite IH1. reflexivity.
    + constructor; [reflexivity | assumption].
Qed.

(** One row without a column 0 makes the whole comprehension raise. *)
Lemma comprehension_empty_row (rows : list (list value)) :
  Exists (fun row => row = []) rows ->
  exists e, comprehension (fun record => getitem record 0) rows = Raise e.
Proof.
  induction 1 as [row rows Hrow | row rows _ [e IH]].
  - subst row. eexists. reflexivity.
  - simpl. destruct (getitem row 0) as [v|e'].
    + exists e. cbn [mbind result_bind]. rewrite IH. reflexivity.
    + exists e'. reflexivity.
Qed.

(** Unfolds the monadic plumbing of a method down to the client calls. *)
Ltac run_method :=
  unfold try_except, mbind, M_bind, result_bind, attr, lift, log_debug,
    logger_error, mret, M_ret, emit, world_logging;
  cbn [self log].

(** [list_labels] as one pure pipeline: select the graph, query it, project
    column 0; an exception anywhere along it is logged and becomes [[]]. *)
Lemma list_labels_run (w : world) :
  list_labels w =
    let w' := emit (DEBUG, "Listing node labels in FalkorDB database") w in
    match (graph ← selected_graph w;
           result ← query graph "CALL db.labels()";
           comprehension (fun record => getitem record 0) (result_set result)) with
    | Ok labels => (Ok labels, w')
    | Raise e => (Ok [], emit (ERROR, "Error listing labels: " +:+ str e) w')
    end.
Proof.
  unfold list_labels. run_method.
  destruct (selected_graph w) as [g|e]; [|reflexivity].
  destruct (query g _) as [r|e]; [|reflexivity].
  destruct (comprehension _ _) as [labels|e]; reflexivity.
Qed.

Lemma list_relationship_types_run (w : world) :
  list_relationship_types w =
    let w' := emit (DEBUG, "Listing relationship types in FalkorDB database") w in
    match (graph ← selected_graph w;
           result ← query graph "CALL db.relationshipTypes()";
           comprehension (fun record => getitem record 0) (result_set result)) with
    | Ok types => (Ok types, w')
    | Raise e => (Ok [], emit (ERROR, "Error listing relationship types: " +:+ str e) w')
    end.
Proof.
  unfold list_relationship_types. run_method.
  destruct (selected_graph w) as [g|e]; [|reflexivity].
  destruct (query g _) as [r|e]; [|reflexivity].
  destruct (comprehension _ _) as [types|e]; reflexivity.
Qed.

Lemma get_schema_run (w : world) :
  get_schema w =
    let w' := emit (DEBUG, "Retrieving FalkorDB schema") w in
    match (graph ← selected_graph w;
           labels_result ← query graph "CALL db.labels()";
           labels ← comprehension (fun record => getitem record 0) (result_set labels_result);
           rel_types_result ← query graph "CALL db.relationshipTypes()";
           rel_types ← comprehension (fun record => getitem record 0) (result_set rel_types_result);
           Ok [VDict {[ "labels" := VList labels; "relationshipTypes" := VList rel_types ]}]) with
    | Ok schema_data => (Ok schema_data, w')
    | Raise e => (Ok [], emit (ERROR, "Error getting FalkorDB schema: " +:+ str e) w')
    end.
Proof.
  unfold get_schema. run_method.
  destruct (selected_graph w) as [g|e]; [|reflexivity].
  destruct (query g "CALL db.labels()") as [r|e]; [|reflexivity].
  destruct (comprehension _ (result_set r)) as [labels|e]; [|reflexivity].
  destruct (query g "CALL db.relationshipTypes()") as [r'|e]; [|reflexivity].
  destruct (comprehension _ (result_set r')) as [types|e]; reflexivity.
Qed.

Lemma run_cypher_query_run (q : string) (w : world) :
  run_cypher_query q w =
    let w' := emit (DEBUG, "Running Cypher query: " +:+ q) w in
    match (graph ← selected_graph w;
           result ← query graph q;
           if truthy (header result) then
             for_in (result_set result)
               (fun data record =>
                  d ← row_dict (default [] (header result)) record;
                  Ok (data ++ [VDict d]))
               []
           else Ok (VList <$> result_set result)) with
    | Ok data => (Ok data, w')
    | Raise e => (Ok [], emit (ERROR, "Error running Cypher query: " +:+ str e) w')
    end.
Proof.
  unfold run_cypher_query. run_method.
  destruct (selected_graph w) as [g|e]; [|reflexivity].
  destruct (query g q) as [r|e]; [|reflexivity].
  destruct (truthy (header r)); [|reflexivity].
  destruct (for_in _ _ _) as [data|e]; reflexivity.
Qed.

(** ** Rows and records *)

(** Assigning the pairs one by one, as the inner loop does. *)
Lemma foldl_insert_snoc (d : gmap string value) (pairs : list (string * value)) k v :
  foldl (fun d kv => <[kv.1 := kv.2]> d) d (pairs ++ [(k, v)])
  = <[k := v]> (foldl (fun d kv => <[kv.1 := kv.2]> d) d pairs).
Proof. rewrite foldl_app. reflexivity. Qed.

(** A key is bound in [dict(pairs)] exactly when some pair carries it. *)
Lemma dict_of_pairs_dom (pairs : list (string * value)) :
  dom (dict_of_pairs pairs) = (list_to_set pairs.*1 : gset string).
Proof.
  unfold dict_of_pairs.
  induction pairs as [|[k v] pairs IH] using rev_ind.
  - simpl. apply dom_empty_L.
  - rewrite foldl_insert_snoc, dom_insert_L, IH, fmap_app, list_to_set_app_L.
    simpl. rewrite union_empty_r_L. apply union_comm_L.
Qed.

(** The value of a key is the one of its last pair. *)
Lemma dict_of_pairs_last (pairs : list (string * value)) i k v :
  pairs !! i = Some (k, v) ->
  (forall j v', i < j -> pairs !! j ≠ Some (k, v')) ->
  dict_of_pairs pairs !! k = Some v.
Proof.
  unfold dict_of_pairs. revert i.
  induction pairs as [|[k' v'] pairs IH] using rev_ind; intros i Hi Hlast.
  - rewrite lookup_nil in Hi. discriminate.
  - rewrite foldl_insert_snoc.
    destruct (decide (i < length pairs)) as [Hlt|Hge].
    + rewrite lookup_app_l in Hi by exact Hlt.
      assert (k' ≠ k) as Hne.
      { intros ->. apply (Hlast (length pairs) v' Hlt).
        rewrite lookup_app_r by lia. rewrite Nat.sub_diag. reflexivity. }
      rewrite lookup_insert_ne by exact Hne.
      apply (IH i Hi). intros j w Hj Hjw.
      apply (Hlast j w Hj).
      rewrite lookup_app_l; [exact Hjw|]. eapply lookup_lt_Some, Hjw.
    + rewrite lookup_app_r in Hi by lia.
      destruct (i - length pairs) as [|n] eqn:Hn; simpl in Hi; [|discriminate].
      injection Hi as -> ->. apply lookup_insert_eq.
Qed.

(** Every binding of [dict(pairs)] is one of the pairs. *)
Lemma dict_of_pairs_from (pairs : list (string * value)) k v :
  dict_of_pairs pairs !! k = Some v -> exists i, pairs !! i = Some (k, v).
Proof.
  unfold dict_of_pairs.
  induction pairs as [|[k' v'] pairs IH] using rev_ind.
  - simpl. rewrite lookup_empty. discriminate.
  - rewrite foldl_insert_snoc. destruct (decide (k' = k)) as [->|Hne].
    + rewrite lookup_insert_eq. intros [= ->].
      exists (length pairs). rewrite lookup_app_r by lia.
      rewrite Nat.sub_diag. reflexivity.
    + rewrite lookup_insert_ne by exact Hne. intros H.
      destruct (IH H) as [i Hi]. exists i.
      rewrite lookup_app_l; [exact Hi|]. eapply lookup_lt_Some, Hi.
Qed.

Lemma getitem_Some (record : list value) i v :
  record !! i = Some v -> getitem record i = Ok v.
Proof. unfold getitem. intros ->. reflexivity. Qed.

Lemma getitem_None (record : list value) i :
  record !! i = None -> getitem record i = Raise (IndexError "list index out of range").
Proof. unfold getitem. intros ->. reflexivity. Qed.

(** The inner loop, started at column [n] with a dictionary [d]: on a row
    that reaches every remaining column it assigns them in order. *)
Lemma row_dict_loop_ok (record : list value) (columns : list string) n
    (d : gmap string value) :
  n + length columns <= length record ->
  for_in (enumerate_from n columns)
    (fun row_dict '(i, column_name) =>
       v ← getitem record i; Ok (<[column_name := v]> row_dict)) d
  = Ok (foldl (fun d kv => <[kv.1 := kv.2]> d) d (zip columns (drop n record))).
Proof.
  revert n d. induction columns as [|c columns IH]; intros n d Hlen.
  - reflexivity.
  - simpl in Hlen.
    destruct (lookup_lt_is_Some_2 record n ltac:(lia)) as [v Hv].
    rewrite (drop_S _ _ _ Hv).
    cbn [enumerate_from for_in zip_with foldl mbind result_bind].
    rewrite (getitem_Some _ _ _ Hv). cbn [mbind result_bind fst snd].
    apply IH. lia.
Qed.

(** On a row that is too short the inner loop raises [IndexError]. *)
Lemma row_dict_loop_short (record : list value) (columns : list string) n
    (d : gmap string value) :
  n <= length record < n + length columns ->
  for_in (enumerate_from n columns)
    (fun row_dict '(i, column_name) =>
       v ← getitem record i; Ok (<[column_name := v]> row_dict)) d
  = Raise (IndexError "list index out of range").
Proof.
  revert n d. induction columns as [|c columns IH]; intros n d Hlen.
  - simpl in Hlen. lia.
  - cbn [enumerate_from for_in].
    destruct (record !! n) as [v|] eqn:Hv.
    + rewrite (getitem_Some _ _ _ Hv). cbn [mbind result_bind].
      apply IH. apply lookup_lt_Some in Hv. simpl in Hlen. lia.
    + rewrite (getitem_None _ _ Hv). reflexivity.
Qed.

Lemma row_dict_ok (columns : list string) (record : list value) :
  length columns <= length record ->
  row_dict columns record = Ok (dict_of_pairs (zip columns record)).
Proof.
  intros Hlen. unfold row_dict, enumerate, dict_of_pairs.
  rewrite row_dict_loop_ok by (simpl; lia). reflexivity.
Qed.

Lemma row_dict_short (columns : list string) (record : list value) :
  length record < length columns ->
  row_dict columns record = Raise (IndexError "list index out of range").
Proof.
  intros Hlen. unfold row_dict, enumerate.
  apply row_dict_loop_short. simpl. lia.
Qed.

(** The outer loop over the rows: when every row reaches every column, one
    dictionary per row is appended, in row order. *)
Lemma records_loop_ok (columns : list string) (rows : list (list value)) (data : list value) :
  Forall (fun row => length columns <= length row) rows ->
  for_in rows
    (fun data record => d ← row_dict columns record; Ok (data ++ [VDict d])) data
  = Ok (data ++ ((fun row => VDict (dict_of_pairs (zip columns row))) <$> rows)).
Proof.
  intros Hrows. revert data.
  induction Hrows as [|row rows Hrow _ IH]; intros data.
  - simpl. rewrite app_nil_r. reflexivity.
  - cbn [for_in mbind result_bind]. rewrite (row_dict_ok _ _ Hrow).
    cbn [mbind result_bind]. rewrite IH, <- app_assoc. reflexivity.
Qed.

(** One short row makes the outer loop raise [IndexError], whatever was
    collected before it. *)
Lemma records_loop_short (columns : list string) (rows : list (list value)) (data : list value) :
  Exists (fun row => length row < length columns) rows ->
  for_in rows
    (fun data record => d ← row_dict columns record; Ok (data ++ [VDict d])) data
  = Raise (IndexError "list index out of range").
Proof.
  intros Hrows. revert data.
  induction Hrows as [row rows Hrow | row rows _ IH]; intros data.
  - cbn [for_in mbind result_bind]. rewrite (row_dict_short _ _ Hrow). reflexivity.
  - cbn [for_in mbind result_bind].
    destruct (decide (length columns <= length row)) as [Hlong|Hshort].
    + rewrite (row_dict_ok _ _ Hlong). cbn [mbind result_bind]. apply IH.
    + rewrite row_dict_short by lia. reflexivity.
Qed.

(** The record of a row that reaches every column: its keys are the column
    names, and a name holds the value at its (last) position. *)
Lemma record_keys (columns : list string) (row : list value) :
  length columns <= length row ->
  dom (dict_of_pairs (zip columns row)) = (list_to_set columns : gset string).
Proof.
  intros Hlen. rewrite dict_of_pairs_dom, fst_zip by exact Hlen. reflexivity.
Qed.

Lemma record_positional (columns : list string) (row : list value) i k :
  length columns <= length row ->
  columns !! i = Some k ->
  (forall j, i < j -> columns !! j ≠ Some k) ->
  dict_of_pairs (zip columns row) !! k = row !! i.
Proof.
  intros Hlen Hk Hlast.
  destruct (lookup_lt_is_Some_2 row i) as [v Hv].
  { apply lookup_lt_Some in Hk. lia. }
  rewrite Hv. apply (dict_of_pairs_last _ i).
  - apply lookup_zip_Some. split; assumption.
  - intros j v' Hj [Hjk _]%lookup_zip_Some. exact (Hlast j Hj Hjk).
Qed.

Lemma record_values (columns : list string) (row : list value) k v :
  dict_of_pairs (zip columns row) !! k = Some v ->
  exists i, i < length columns /\ columns !! i = Some k /\ row !! i = Some v.
Proof.
  intros H. destruct (dict_of_pairs_from _ _ _ H) as [i Hi].
  apply lookup_zip_Some in Hi as [Hk Hv].
  exists i. split; [eapply lookup_lt_Some, Hk | split; assumption].
Qed.

(** ** Label and relationship-type enumeration *)

(** C5, counterexample: when the label query answers with the rows
    [["Person"], []], [list_labels] returns the empty list, which is not
    the first column of each row. *)
Lemma list_labels_empty_row_counterexample :
  (list_labels Scenario.empty_label_row).1 = Ok []
  /\ ~ exists labels,
         (list_labels Scenario.empty_label_row).1 = Ok labels
         /\ Forall2 (fun row v => row !! 0%nat = Some v)
              [[VStr "Person"]; []] labels.
Proof.
  split; [reflexivity|].
  intros (labels & Hrun & Hcol).
  apply Forall2_length in Hcol.
  injection Hrun as <-. discriminate Hcol.
Qed.

(** C5, amended: for every row sequence the introspection query returns in
    which every row has at least one column, [list_labels] and
    [list_relationship_types] return exactly column 0 of each row, in row
    order; a row without columns makes the call return the empty list. *)
Theorem enumeration_first_column (w : world) (g : Graph) :
  selected_graph w = Ok g ->
  (forall r, query g "CALL db.labels()" = Ok r ->
     (Forall (fun row => row ≠ []) (result_set r) ->
      exists labels,
        (list_labels w).1 = Ok labels
        /\ Forall2 (fun row v => row !! 0%nat = Some v) (result_set r) labels)
     /\ (Exists (fun row => row = []) (result_set r) ->
         (list_labels w).1 = Ok []))
  /\ (forall r, query g "CALL db.relationshipTypes()" = Ok r ->
     (Forall (fun row => row ≠ []) (result_set r) ->
      exists types,
        (list_relationship_types w).1 = Ok types
        /\ Forall2 (fun row v => row !! 0%nat = Some v) (result_set r) types)
     /\ (Exists (fun row => row = []) (result_set r) ->
         (list_relationship_types w).1 = Ok [])).
Proof.
  intros Hg. split; intros r Hr; split; intros Hrows.
  - destruct (comprehension_first_column _ Hrows) as (labels & Hc & Hcol).
    exists labels. split; [|exact Hcol].
    rewrite list_labels_run. cbn zeta. rewrite Hg. cbn [mbind result_bind].
    rewrite Hr. cbn [mbind result_bind]. rewrite Hc. reflexivity.
  - destruct (comprehension_empty_row _ Hrows) as (e & Hc).
    rewrite list_labels_run. cbn zeta. rewrite Hg. cbn [mbind result_bind].
    rewrite Hr. cbn [mbind result_bind]. rewrite Hc. reflexivity.
  - destruct (comprehension_first_column _ Hrows) as (types & Hc & Hcol).
    exists types. split; [|exact Hcol].
    rewrite list_relationship_types_run. cbn zeta. rewrite Hg. cbn [mbind result_bind].
    rewrite Hr. cbn [mbind result_bind]. rewrite Hc. reflexivity.
  - destruct (comprehension_empty_row _ Hrows) as (e & Hc).
    rewrite list_relationship_types_run. cbn zeta. rewrite Hg. cbn [mbind result_bind].
    rewrite Hr. cbn [mbind result_bind]. rewrite Hc. reflexivity.
Qed.

(** The rows [["Person"], ["Movie"]] yield ["Person", "Movie"]. *)
Lemma enumeration_first_column_witness :
  exists labels,
    (list_labels Scenario.movies).1 = Ok labels
    /\ Forall2 (fun row v => row !! 0%nat = Some v)
         [[VStr "Person"]; [VStr "Movie"]] labels.
Proof.
  refine (proj1 (proj1 (enumeration_first_column Scenario.movies
    (Mock.graph _) eq_refl) _ eq_refl) _).
  repeat constructor; discriminate.
Defined.

(** ** Schema retrieval *)

(** C4, counterexample: both introspection queries return a result, but the
    label rows are [["Person"], []].  [list_labels] returns [[]],
    [list_relationship_types] returns ["ACTED_IN"], and [get_schema]
    returns the empty list instead of the one-element schema built from
    them. *)
Lemma get_schema_empty_row_counterexample :
  (exists g lr rr,
     selected_graph Scenario.empty_label_row = Ok g
     /\ query g "CALL db.labels()" = Ok lr
     /\ query g "CALL db.relationshipTypes()" = Ok rr)
  /\ ~ exists L R,
         (list_labels Scenario.empty_label_row).1 = Ok L
         /\ (list_relationship_types Scenario.empty_label_row).1 = Ok R
         /\ (get_schema Scenario.empty_label_row).1
            = Ok [VDict {[ "labels" := VList L; "relationshipTypes" := VList R ]}].
Proof.
  split.
  - eexists _, _, _. repeat split; reflexivity.
  - intros (L & R & _ & _ & Hschema). discriminate Hschema.
Qed.

(** C4, amended: for every database state in which both introspection
    queries succeed and every row they return has at least one column,
    [get_schema] returns the single-element list
    [{"labels": L, "relationshipTypes": R}] where [L] is what [list_labels]
    returns and [R] what [list_relationship_types] returns in that state. *)
Theorem get_schema_combines (w : world) (g : Graph) (lr rr : QueryResult) :
  selected_graph w = Ok g ->
  query g "CALL db.labels()" = Ok lr ->
  query g "CALL db.relationshipTypes()" = Ok rr ->
  Forall (fun row => row ≠ []) (result_set lr) ->
  Forall (fun row => row ≠ []) (result_set rr) ->
  exists L R,
    (list_labels w).1 = Ok L
    /\ (list_relationship_types w).1 = Ok R
    /\ (get_schema w).1
       = Ok [VDict {[ "labels" := VList L; "relationshipTypes" := VList R ]}].
Proof.
  intros Hg Hlr Hrr Hlrows Hrrows.
  destruct (comprehension_first_column _ Hlrows) as (L & HL & _).
  destruct (comprehension_first_column _ Hrrows) as (R & HR & _).
  exists L, R.
  rewrite list_labels_run, list_relationship_types_run, get_schema_run.
  cbn zeta. rewrite Hg. cbn [mbind result_bind].
  rewrite Hlr, Hrr. cbn [mbind result_bind].
  rewrite HL, HR. cbn [mbind result_bind].
  repeat split; reflexivity.
Qed.

(** The schema of the movie database. *)
Lemma get_schema_combines_witness :
  exists L R,
    (list_labels Scenario.movies).1 = Ok L
    /\ (list_relationship_types Scenario.movies).1 = Ok R
    /\ (get_schema Scenario.movies).1
       = Ok [VDict {[ "labels" := VList L; "relationshipTypes" := VList R ]}].
Proof.
  refine (get_schema_combines Scenario.movies (Mock.graph _) _ _
            eq_refl eq_refl eq_refl _ _);
    repeat constructor; discriminate.
Defined.

(** C6: in [get_schema], an exception raised by either sub-query aborts the
    whole operation and yields the empty list; in particular, when the
    label query succeeds and the relationship-type query raises, the labels
    already computed are discarded and [[]] is returned. *)
Theorem get_schema_aborts (w : world) (g : Graph) (e : exn) :
  selected_graph w = Ok g ->
  query g "CALL db.labels()" = Raise e
  \/ ((exists lr, query g "CALL db.labels()" = Ok lr)
      /\ query g "CALL db.relationshipTypes()" = Raise e) ->
  (get_schema w).1 = Ok [].
Proof.
  intros Hg Hfail. rewrite get_schema_run. cbn zeta.
  rewrite Hg. cbn [mbind result_bind].
  destruct Hfail as [Hl | [[lr Hl] Hr]]; rewrite Hl; cbn [mbind result_bind].
  - reflexivity.
  - destruct (comprehension _ (result_set lr)) as [labels|e'];
      cbn [mbind result_bind]; [|reflexivity].
    rewrite Hr. reflexivity.
Qed.

(** The labels [Person], [Movie] are computed, the relationship-type query
    raises, and the schema is empty. *)
Lemma get_schema_aborts_witness :
  (list_labels Scenario.labels_only).1 = Ok [VStr "Person"; VStr "Movie"]
  /\ (get_schema Scenario.labels_only).1 = Ok [].
Proof.
  split; [reflexivity|].
  refine (get_schema_aborts Scenario.labels_only (Mock.graph _)
            (Exception "Query failed") eq_refl _).
  right. split; [eexists; reflexivity | reflexivity].
Defined.

(** ** Error containment *)

(** C3: none of the four public operations ever raises, and whenever the
    underlying client raises during one of them (from [select_graph] or
    from [query]) the operation returns the empty list. *)
Theorem operations_contain_errors (w : world) (q : string) :
  ((exists v, (list_labels w).1 = Ok v)
   /\ (exists v, (list_relationship_types w).1 = Ok v)
   /\ (exists v, (get_schema w).1 = Ok v)
   /\ (exists v, (run_cypher_query q w).1 = Ok v))
  /\ (forall e, client_raises w "CALL db.labels()" e ->
        (list_labels w).1 = Ok [])
  /\ (forall e, client_raises w "CALL db.relationshipTypes()" e ->
        (list_relationship_types w).1 = Ok [])
  /\ (forall e, client_raises w "CALL db.labels()" e
                \/ client_raises w "CALL db.relationshipTypes()" e ->
        (get_schema w).1 = Ok [])
  /\ (forall e, client_raises w q e ->
        (run_cypher_query q w).1 = Ok []).
Proof.
  rewrite list_labels_run, list_relationship_types_run, get_schema_run,
    run_cypher_query_run. cbn zeta.
  refine (conj (conj _ (conj _ (conj _ _))) (conj _ (conj _ (conj _ _)))).
  - destruct (_ ≫= _); eexists; reflexivity.
  - destruct (_ ≫= _); eexists; reflexivity.
  - destruct (_ ≫= _); eexists; reflexivity.
  - destruct (_ ≫= _); eexists; reflexivity.
  - intros e [Hs | (g & Hs & Hq)]; rewrite Hs; cbn [mbind result_bind];
      [|rewrite Hq]; reflexivity.
  - intros e [Hs | (g & Hs & Hq)]; rewrite Hs; cbn [mbind result_bind];
      [|rewrite Hq]; reflexivity.
  - intros e [[Hs | (g & Hs & Hq)] | [Hs | (g & Hs & Hq)]];
      rewrite Hs; cbn [mbind result_bind]; try reflexivity.
    + rewrite Hq. reflexivity.
    + destruct (query g "CALL db.labels()") as [lr|e'];
        cbn [mbind result_bind]; [|reflexivity].
      destruct (comprehension _ (result_set lr)) as [labels|e'];
        cbn [mbind result_bind]; [|reflexivity].
      rewrite Hq. reflexivity.
  - intros e [Hs | (g & Hs & Hq)]; rewrite Hs; cbn [mbind result_bind];
      [|rewrite Hq]; reflexivity.
Qed.

(** Against a database on which every query raises, the four operations
    return the empty list. *)
Lemma operations_contain_errors_witness :
  (list_labels Scenario.failing).1 = Ok []
  /\ (list_relationship_types Scenario.failing).1 = Ok []
  /\ (get_schema Scenario.failing).1 = Ok []
  /\ (run_cypher_query "INVALID QUERY" Scenario.failing).1 = Ok [].
Proof.
  pose proof (operations_contain_errors Scenario.failing "INVALID QUERY")
    as (_ & Hl & Hr & Hs & Hq).
  assert (forall q', client_raises Scenario.failing q' (Exception "Query failed"))
    as Hraises.
  { intros q'. right. eexists. split; reflexivity. }
  refine (conj _ (conj _ (conj _ _))).
  - exact (Hl _ (Hraises _)).
  - exact (Hr _ (Hraises _)).
  - exact (Hs _ (or_introl (Hraises _))).
  - exact (Hq _ (Hraises _)).
Defined.

(** ** Frame *)

(** C10: every public operation leaves the instance as it found it: [db]
    and [graph_name] (and the registered tools) are read but never
    reassigned, whether the operation succeeds or takes the error path;
    only the log grows. *)
Theorem operations_preserve_self (w : world) (q : string) :
  self (list_labels w).2 = self w
  /\ self (list_relationship_types w).2 = self w
  /\ self (get_schema w).2 = self w
  /\ self (run_cypher_query q w).2 = self w.
Proof.
  rewrite list_labels_run, list_relationship_types_run, get_schema_run,
    run_cypher_query_run. cbn zeta.
  refine (conj _ (conj _ (conj _ _))); destruct (_ ≫= _); reflexivity.
Qed.

(** ** Cypher queries *)

(** With a header and rows that reach every column, the call returns the
    records of the rows, in row order. *)
Lemma run_cypher_query_records (q : string) (w : world) (g : Graph)
    (r : QueryResult) (columns : list string) :
  selected_graph w = Ok g ->
  query g q = Ok r ->
  header r = Some columns ->
  columns ≠ [] ->
  Forall (fun row => length columns <= length row) (result_set r) ->
  (run_cypher_query q w).1
  = Ok (VDict <$> ((fun row => dict_of_pairs (zip columns row)) <$> result_set r)).
Proof.
  intros Hg Hr Hheader Hcolumns Hrows.
  rewrite run_cypher_query_run. cbn zeta.
  rewrite Hg. cbn [mbind result_bind]. rewrite Hr. cbn [mbind result_bind].
  rewrite Hheader. destruct columns as [|c columns]; [congruence|].
  cbn [truthy option_truthy list_truthy from_option id].
  rewrite (records_loop_ok _ _ _ Hrows), <- list_fmap_compose. reflexivity.
Qed.

(** With a header and one row that is shorter than it, the [IndexError] of
    the lookup reaches the handler: the call logs it and returns the empty
    list. *)
Lemma run_cypher_query_short_row (q : string) (w : world) (g : Graph)
    (r : QueryResult) (columns : list string) :
  selected_graph w = Ok g ->
  query g q = Ok r ->
  header r = Some columns ->
  Exists (fun row => length row < length columns) (result_set r) ->
  run_cypher_query q w
  = (Ok [],
     {| self := self w;
        log := log w ++ [(DEBUG, "Running Cypher query: " +:+ q)]
                     ++ [(ERROR, "Error running Cypher query: list index out of range")] |}).
Proof.
  intros Hg Hr Hheader Hrows.
  rewrite run_cypher_query_run. cbn zeta.
  rewrite Hg. cbn [mbind result_bind]. rewrite Hr. cbn [mbind result_bind].
  rewrite Hheader. destruct columns as [|c columns].
  { apply Exists_exists in Hrows as (row & _ & Hrow). simpl in Hrow. lia. }
  cbn [truthy option_truthy list_truthy from_option id].
  rewrite (records_loop_short _ _ [] Hrows).
  unfold emit, world_logging. cbn [self log str]. rewrite <- app_assoc. reflexivity.
Qed.

(** C1, counterexample: with the header ["name", "age"] and the rows
    [["John", 30], ["Jane"]] the result carries a header, yet the call
    returns the empty list and not one record per row. *)
Lemma run_cypher_query_short_row_counterexample :
  (run_cypher_query Scenario.people_query Scenario.people_short_row).1 = Ok []
  /\ ~ exists records : list (gmap string value),
         (run_cypher_query Scenario.people_query Scenario.people_short_row).1
         = Ok (VDict <$> records)
         /\ length records = length [[VStr "John"; VInt 30]; [VStr "Jane"]].
Proof.
  split; [reflexivity|].
  intros (records & Hrun & Hlen).
  destruct records as [|record records]; [discriminate Hlen | discriminate Hrun].
Qed.

(** C1, amended: if the result carries a header ([result.header] is true: a
    non-empty list of names) and every row has at least as many values as
    the header has names, [run_cypher_query] returns one string-keyed
    record per row, in row order, whose keys are the header names, each
    name holding the row value at its position in the header (at its last
    position, should the header repeat it); if the result carries no header
    ([None] or the empty list), it returns the raw rows unchanged. *)
Theorem run_cypher_query_shapes (q : string) (w : world) (g : Graph) (r : QueryResult) :
  selected_graph w = Ok g ->
  query g q = Ok r ->
  (forall columns,
     header r = Some columns ->
     columns ≠ [] ->
     Forall (fun row => length columns <= length row) (result_set r) ->
     exists records : list (gmap string value),
       (run_cypher_query q w).1 = Ok (VDict <$> records)
       /\ Forall2
            (fun row record =>
               dom record = (list_to_set columns : gset string)
               /\ forall i k,
                    columns !! i = Some k ->
                    (forall j, i < j -> columns !! j ≠ Some k) ->
                    record !! k = row !! i)
            (result_set r) records)
  /\ (truthy (header r) = false ->
      (run_cypher_query q w).1 = Ok (VList <$> result_set r)).
Proof.
  intros Hg Hr. split.
  - intros columns Hheader Hcolumns Hrows.
    eexists. split.
    + apply (run_cypher_query_records q w g r columns); assumption.
    + apply Forall2_fmap_r, Forall_Forall2_diag.
      eapply Forall_impl; [exact Hrows|].
      intros row Hrow. cbn beta. split.
      * apply record_keys, Hrow.
      * intros i k Hk Hlast. apply record_positional; assumption.
  - intros Hheader. rewrite run_cypher_query_run. cbn zeta.
    rewrite Hg. cbn [mbind result_bind]. rewrite Hr. cbn [mbind result_bind].
    rewrite Hheader. reflexivity.
Qed.

(** The example of the specification: header ["name", "age"], rows
    [["John", 30], ["Jane", 25]]; and the rows [[1], [2], [3]] without
    header. *)
Lemma run_cypher_query_shapes_witness :
  (exists records : list (gmap string value),
     (run_cypher_query Scenario.people_query Scenario.people).1
     = Ok (VDict <$> records)
     /\ Forall2
          (fun row record =>
             dom record = (list_to_set ["name"; "age"] : gset string)
             /\ forall i k,
                  ["name"; "age"] !! i = Some k ->
                  (forall j, i < j -> ["name"; "age"] !! j ≠ Some k) ->
                  record !! k = row !! i)
          [[VStr "John"; VInt 30]; [VStr "Jane"; VInt 25]] records)
  /\ (run_cypher_query Scenario.count_query Scenario.counts).1
     = Ok [VList [VInt 1]; VList [VInt 2]; VList [VInt 3]].
Proof.
  split.
  - refine (proj1 (run_cypher_query_shapes Scenario.people_query Scenario.people
              (Mock.graph _) _ eq_refl eq_refl) ["name"; "age"] eq_refl _ _).
    + discriminate.
    + repeat constructor.
  - exact (proj2 (run_cypher_query_shapes Scenario.count_query Scenario.counts
              (Mock.graph _) _ eq_refl eq_refl) eq_refl).
Defined.

(** C9: in [run_cypher_query] with a header of length h ([result.header]
    is true, so h is at least 1), if any row has fewer than h values the
    out-of-range lookup is caught by the handler, which logs the
    [IndexError], and the whole call returns the empty list, well-formed
    rows included; if every row has at least h values, every returned
    record has exactly the header names as keys (h of them when the names
    are distinct) and holds only values from the first h positions of its
    row: extra trailing values are dropped without an error. *)
Theorem run_cypher_query_row_lengths (q : string) (w : world) (g : Graph)
    (r : QueryResult) (columns : list string) :
  selected_graph w = Ok g ->
  query g q = Ok r ->
  header r = Some columns ->
  columns ≠ [] ->
  (Exists (fun row => length row < length columns) (result_set r) ->
   (run_cypher_query q w).1 = Ok []
   /\ log (run_cypher_query q w).2
      = log w ++ [(DEBUG, "Running Cypher query: " +:+ q)]
              ++ [(ERROR, "Error running Cypher query: list index out of range")])
  /\ (Forall (fun row => length columns <= length row) (result_set r) ->
      exists records : list (gmap string value),
        (run_cypher_query q w).1 = Ok (VDict <$> records)
        /\ Forall2
             (fun row record =>
                dom record = (list_to_set columns : gset string)
                /\ (NoDup columns -> size record = length columns)
                /\ forall k v,
                     record !! k = Some v ->
                     exists i, i < length columns
                               /\ columns !! i = Some k /\ row !! i = Some v)
             (result_set r) records).
Proof.
  intros Hg Hr Hheader Hcolumns. split.
  - intros Hrows.
    rewrite (run_cypher_query_short_row q w g r columns) by assumption.
    split; reflexivity.
  - intros Hrows. eexists. split.
    + apply (run_cypher_query_records q w g r columns); assumption.
    + apply Forall2_fmap_r, Forall_Forall2_diag.
      eapply Forall_impl; [exact Hrows|].
      intros row Hrow. cbn beta.
      pose proof (record_keys columns row Hrow) as Hdom.
      split; [exact Hdom | split].
      * intros Hnodup. rewrite <- size_dom, Hdom.
        apply size_list_to_set, Hnodup.
      * apply record_values.
Qed.

(** A row without the [age] value empties the result; the row
    ["John", 30, "extra"] under the header ["name", "age"] gives a record
    with the keys [name] and [age] only. *)
Lemma run_cypher_query_row_lengths_witness :
  (run_cypher_query Scenario.people_query Scenario.people_short_row).1 = Ok []
  /\ exists records : list (gmap string value),
       (run_cypher_query Scenario.people_query Scenario.people_long_row).1
       = Ok (VDict <$> records)
       /\ Forall (fun record => dom record = ({[ "name"; "age" ]} : gset string)) records.
Proof.
  split.
  - refine (proj1 (proj1 (run_cypher_query_row_lengths Scenario.people_query
              Scenario.people_short_row (Mock.graph _) _ ["name"; "age"]
              eq_refl eq_refl eq_refl _) _)).
    + discriminate.
    + apply Exists_cons_tl, Exists_cons_hd. simpl. lia.
  - destruct (proj2 (run_cypher_query_row_lengths Scenario.people_query
              Scenario.people_long_row (Mock.graph _) _ ["name"; "age"]
              eq_refl eq_refl eq_refl ltac:(discriminate)))
      as (records & Hrun & Hrecords).
    + repeat constructor.
    + exists records. split; [exact Hrun|].
      eapply Forall2_Forall_r; [exact Hrecords|].
      repeat constructor. intros record [Hdom _]. rewrite Hdom.
      simpl. rewrite union_empty_r_L. reflexivity.
Defined.

(** ** Construction *)

Section ConstructionProperties.

Variable int : string -> result Z.
Variable FalkorDB_connect : ConnectionParameters -> result FalkorDB.

(** [__init__] as a case analysis: the parameters may fail to resolve
    (a port variable that is no integer), the connection may fail, or the
    instance is returned. *)
Lemma init_run (a : Args.t) (environ : gmap string string) (records : list log_record) :
  __init__ int FalkorDB_connect a environ records =
    match connection_parameters int a environ with
    | Raise e => (Raise e, records)
    | Ok parameters =>
        match FalkorDB_connect parameters with
        | Raise e =>
            (Raise e, records ++ [(ERROR, "Failed to connect to FalkorDB: " +:+ str e)])
        | Ok connection =>
            (Ok {| base := Toolkit_init "falkordb_tools" (registered_tools a);
                   db := connection;
                   graph_name := or_default (Args.graph_name a)
                                   (getenv_default environ "FALKORDB_GRAPH" "agno") |},
             records ++ [(DEBUG, "Connected to FalkorDB database")])
        end
    end.
Proof.
  unfold __init__, try_except, raise, mbind, M_bind, lift, log_debug, logger_error,
    mret, M_ret, emit, list_logging.
  destruct (connection_parameters int a environ) as [parameters|e]; [|reflexivity].
  destruct (FalkorDB_connect parameters) as [connection|e]; reflexivity.
Qed.

(** [x or default] is the precedence rule with a true explicit value. *)
Lemma or_default_precedence {A} {T : Truthy A} (x env : option A) (d : A) :
  Some (or_default x (from_option id d env))
  = spec_precedence (given x) env (Some d).
Proof.
  unfold or_default, given, option_truthy, truthy.
  destruct x as [v|]; [destruct (T v)|]; destruct env; reflexivity.
Qed.

Lemma or_optional_precedence {A} {T : Truthy A} (x env : option A) :
  or_optional x env = spec_precedence (given x) env None.
Proof.
  unfold or_optional, given, option_truthy, truthy.
  destruct x as [v|]; [destruct (T v)|]; destruct env; reflexivity.
Qed.

Lemma or_else_precedence {A} {T : Truthy A} (x : option A) (env : option string)
    (d : string) (convert : string -> result A) :
  Some (or_else x (convert (from_option id d env)))
  = spec_precedence (Ok <$> given x) (convert <$> env) (Some (convert d)).
Proof.
  unfold or_else, given, option_truthy, truthy.
  destruct x as [v|]; [destruct (T v)|]; destruct env; reflexivity.
Qed.

End ConstructionProperties.

(** C2, counterexample: [FalkorDBTools(host="")] with FALKORDB_HOST set to
    "db.internal" connects to "db.internal"; by the stated precedence the
    explicitly passed "" would win. *)
Lemma explicit_empty_host_counterexample :
  exists parameters,
    connection_parameters Mock.int Scenario.empty_host Scenario.environ_with_host
    = Ok parameters
    /\ host parameters = "db.internal"
    /\ Some (host parameters)
       ≠ spec_precedence (Args.host Scenario.empty_host)
           (Scenario.environ_with_host !! "FALKORDB_HOST") (Some "localhost").
Proof.
  eexists. split; [reflexivity|]. split; [reflexivity|].
  vm_compute. discriminate.
Qed.

(** C2, amended: each connection-configuration field is resolved at
    construction by taking the explicitly passed argument if one was given
    and is true (a non-empty string, a non-zero port), otherwise the
    corresponding environment variable if set (FALKORDB_PORT converted by
    [int]), otherwise the hard-coded default (localhost, 6379, unset,
    unset, "agno"); construction raises before connecting exactly when the
    port has to be converted and [int] raises. *)
Theorem configuration_precedence (int : string -> result Z)
    (FalkorDB_connect : ConnectionParameters -> result FalkorDB)
    (a : Args.t) (environ : gmap string string) :
  int "6379" = Ok 6379%Z ->
  let port_source :=
    spec_precedence (Ok <$> given (Args.port a))
      (int <$> environ !! "FALKORDB_PORT") (Some (Ok 6379%Z)) in
  (forall parameters,
     connection_parameters int a environ = Ok parameters ->
     Some (host parameters)
     = spec_precedence (given (Args.host a)) (environ !! "FALKORDB_HOST")
         (Some "localhost")
     /\ port_source = Some (Ok (port parameters))
     /\ username parameters
        = spec_precedence (given (Args.username a))
            (environ !! "FALKORDB_USERNAME") None
     /\ password parameters
        = spec_precedence (given (Args.password a))
            (environ !! "FALKORDB_PASSWORD") None)
  /\ (forall e,
        connection_parameters int a environ = Raise e <-> port_source = Some (Raise e))
  /\ (forall records obj records',
        __init__ int FalkorDB_connect a environ records = (Ok obj, records') ->
        Some (graph_name obj)
        = spec_precedence (given (Args.graph_name a)) (environ !! "FALKORDB_GRAPH")
            (Some "agno")).
Proof.
  intros Hdefault port_source.
  assert (Some (or_else (Args.port a)
                  (int (getenv_default environ "FALKORDB_PORT" "6379")))
          = port_source) as Hport.
  { unfold port_source. rewrite <- Hdefault. apply or_else_precedence. }
  refine (conj _ (conj _ _)).
  - intros parameters Hparameters. unfold connection_parameters in Hparameters.
    destruct (or_else _ _) as [p|e]; cbn [mbind result_bind] in Hparameters;
      [|discriminate].
    injection Hparameters as <-. cbn [host port username password].
    refine (conj _ (conj _ (conj _ _))).
    + apply or_default_precedence.
    + symmetry. exact Hport.
    + apply or_optional_precedence.
    + apply or_optional_precedence.
  - intros e. unfold connection_parameters. rewrite <- Hport.
    destruct (or_else _ _) as [p|e']; cbn [mbind result_bind]; split;
      intros H; try discriminate; congruence.
  - intros records obj records'. rewrite init_run.
    destruct (connection_parameters int a environ) as [parameters|e]; [|discriminate].
    destruct (FalkorDB_connect parameters) as [connection|e]; [|discriminate].
    intros [= <- _]. cbn [graph_name]. apply or_default_precedence.
Qed.

(** Host and graph name passed explicitly, user name from the environment,
    port and password from the defaults. *)
Lemma configuration_precedence_witness :
  exists parameters,
    connection_parameters Mock.int Scenario.mixed Scenario.environ_mixed
    = Ok parameters
    /\ Some (host parameters) = Some "graph.example"
    /\ Some (Ok 6379%Z) = Some (Ok (port parameters))
    /\ username parameters = Some "test_user"
    /\ password parameters = None.
Proof.
  eexists. split; [reflexivity|].
  exact (proj1 (configuration_precedence Mock.int
                  (Mock.connect Scenario.movies_graph) Scenario.mixed
                  Scenario.environ_mixed eq_refl) _ eq_refl).
Defined.

(** C7: if opening the connection fails during construction, the error is
    logged and propagates to the caller, who receives no instance; and
    every instance the constructor does return holds the handle of the
    connection that was opened, so none exists half-initialised. *)
Theorem construction_failure_propagates (int : string -> result Z)
    (FalkorDB_connect : ConnectionParameters -> result FalkorDB)
    (a : Args.t) (environ : gmap string string) (records : list log_record)
    (parameters : ConnectionParameters) :
  connection_parameters int a environ = Ok parameters ->
  (forall e,
     FalkorDB_connect parameters = Raise e ->
     __init__ int FalkorDB_connect a environ records
     = (Raise e, records ++ [(ERROR, "Failed to connect to FalkorDB: " +:+ str e)]))
  /\ (forall obj records',
        __init__ int FalkorDB_connect a environ records = (Ok obj, records') ->
        FalkorDB_connect parameters = Ok (db obj)).
Proof.
  intros Hparameters. rewrite init_run, Hparameters. split.
  - intros e ->. reflexivity.
  - intros obj records'.
    destruct (FalkorDB_connect parameters) as [connection|e]; [|discriminate].
    intros [= <- _]. reflexivity.
Qed.

(** The test [test_list_labels_connection_error]: the client raises
    "Connection error" and so does the constructor. *)
Lemma construction_failure_propagates_witness :
  __init__ Mock.int Mock.refuse Args.defaults ∅ []
  = (Raise (Exception "Connection error"),
     [(ERROR, "Failed to connect to FalkorDB: Connection error")]).
Proof.
  exact (proj1 (construction_failure_propagates Mock.int Mock.refuse
                  Args.defaults ∅ [] _ eq_refl) _ eq_refl).
Defined.

(** C8: for every combination of the capability flags, an operation is
    advertised to the tool-registration host if and only if [all] is true
    or its own flag is true; with [all] false and the four flags false the
    advertised set is empty, with [all] true the four operations are
    advertised whatever the flags; and calling an operation directly gives
    the same result whatever is advertised. *)
Theorem advertised_tools (int : string -> result Z)
    (FalkorDB_connect : ConnectionParameters -> result FalkorDB)
    (a : Args.t) (environ : gmap string string) (records records' : list log_record)
    (obj : FalkorDBTools) :
  __init__ int FalkorDB_connect a environ records = (Ok obj, records') ->
  (forall t, t ∈ tools obj <-> Args.all a || flag a t = true)
  /\ (Args.all a = false ->
      (forall t, flag a t = false) ->
      tools obj = [])
  /\ (Args.all a = true ->
      tools obj = [tool_list_labels; tool_list_relationship_types;
                   tool_get_schema; tool_run_cypher_query])
  /\ (forall (obj' : FalkorDBTools) lg q,
        db obj' = db obj ->
        graph_name obj' = graph_name obj ->
        (list_labels {| self := obj'; log := lg |}).1
        = (list_labels {| self := obj; log := lg |}).1
        /\ (list_relationship_types {| self := obj'; log := lg |}).1
           = (list_relationship_types {| self := obj; log := lg |}).1
        /\ (get_schema {| self := obj'; log := lg |}).1
           = (get_schema {| self := obj; log := lg |}).1
        /\ (run_cypher_query q {| self := obj'; log := lg |}).1
           = (run_cypher_query q {| self := obj; log := lg |}).1).
Proof.
  rewrite init_run.
  destruct (connection_parameters int a environ) as [parameters|e]; [|discriminate].
  destruct (FalkorDB_connect parameters) as [connection|e]; [|discriminate].
  intros [= <- _]. cbn [base tools Toolkit_init db graph_name].
  refine (conj _ (conj _ (conj _ _))).
  - intros t. unfold registered_tools.
    destruct a as [? ? ? ? ? l r s c al]. cbn [Args.all Args.enable_list_labels
      Args.enable_list_relationships Args.enable_get_schema Args.enable_run_cypher flag].
    destruct al, l, r, s, c, t; cbn; split; intros Ht;
      try reflexivity; try discriminate Ht;
      repeat (apply elem_of_cons in Ht as [Ht|Ht]; [discriminate Ht|]);
      try (apply elem_of_nil in Ht; contradiction);
      repeat first [apply list_elem_of_here | apply list_elem_of_further].
  - intros Hall Hflags. unfold registered_tools. rewrite Hall.
    pose proof (Hflags tool_list_labels) as H1.
    pose proof (Hflags tool_list_relationship_types) as H2.
    pose proof (Hflags tool_get_schema) as H3.
    pose proof (Hflags tool_run_cypher_query) as H4.
    cbn [flag] in H1, H2, H3, H4. rewrite H1, H2, H3, H4. reflexivity.
  - intros Hall. unfold registered_tools. rewrite Hall. reflexivity.
  - intros obj' lg q Hdb Hname.
    rewrite !list_labels_run, !list_relationship_types_run, !get_schema_run,
      !run_cypher_query_run.
    cbn [self]. cbn [db graph_name] in Hdb, Hname. rewrite Hdb, Hname. cbn zeta.
    refine (conj _ (conj _ (conj _ _))); destruct (_ ≫= _); reflexivity.
Qed.

(** With no flag set nothing is advertised, and [list_labels] called on
    that instance still lists the labels. *)
Lemma advertised_tools_witness :
  exists obj records',
    __init__ Mock.int (Mock.connect Scenario.movies_graph)
      Scenario.nothing_enabled ∅ [] = (Ok obj, records')
    /\ tools obj = []
    /\ (list_labels {| self := obj; log := [] |}).1
       = Ok [VStr "Person"; VStr "Movie"].
Proof.
  eexists _, _. split; [reflexivity|]. split; [|reflexivity].
  refine (proj1 (proj2 (advertised_tools Mock.int
            (Mock.connect Scenario.movies_graph) Scenario.nothing_enabled ∅ [] _ _
            eq_refl)) eq_refl _).
  intros []; reflexivity.
Defined.

(** ** Further properties of the tool methods *)

(** What a call that appended [records] to the log left behind. *)
Lemma appended_app (w w' : world) (records : list log_record) :
  log w' = log w ++ records -> appended w w' = records.
Proof. unfold appended. intros ->. apply drop_app_length. Qed.

Lemma errored_debug_only (w w' : world) (debug : string) :
  log w' = log w ++ [(DEBUG, debug)] -> ~ errored w w'.
Proof.
  intros Hlog [msg Hmsg]. rewrite (appended_app _ _ _ Hlog) in Hmsg.
  apply list_elem_of_singleton in Hmsg. discriminate Hmsg.
Qed.

Lemma errored_with_error (w w' : world) (debug msg : string) :
  log w' = log w ++ [(DEBUG, debug); (ERROR, msg)] -> errored w w'.
Proof.
  intros Hlog. exists msg. rewrite (appended_app _ _ _ Hlog).
  apply list_elem_of_further, list_elem_of_here.
Qed.

(** The log after a method, read off its pipeline. *)
Lemma log_after_success (w : world) (debug : string) :
  log (emit (DEBUG, debug) w) = log w ++ [(DEBUG, debug)].
Proof. reflexivity. Qed.

Lemma log_after_failure (w : world) (debug msg : string) :
  log (emit (ERROR, msg) (emit (DEBUG, debug) w))
  = log w ++ [(DEBUG, debug); (ERROR, msg)].
Proof.
  unfold emit, world_logging. cbn [log]. rewrite <- app_assoc. reflexivity.
Qed.

(** X1: [get_schema] returns either the empty list or exactly one record
    [{"labels": L, "relationshipTypes": R}], and in the second case [L] and
    [R] are what [list_labels] and [list_relationship_types] return in the
    same state, whatever the rows look like. *)
Theorem get_schema_empty_or_consistent (w : world) :
  (get_schema w).1 = Ok []
  \/ exists L R,
       (list_labels w).1 = Ok L
       /\ (list_relationship_types w).1 = Ok R
       /\ (get_schema w).1
          = Ok [VDict {[ "labels" := VList L; "relationshipTypes" := VList R ]}].
Proof.
  rewrite list_labels_run, list_relationship_types_run, get_schema_run. cbn zeta.
  destruct (selected_graph w) as [g|e]; cbn [mbind result_bind]; [|left; reflexivity].
  destruct (query g "CALL db.labels()") as [lr|e];
    cbn [mbind result_bind]; [|left; reflexivity].
  destruct (comprehension _ (result_set lr)) as [L|e];
    cbn [mbind result_bind]; [|left; reflexivity].
  destruct (query g "CALL db.relationshipTypes()") as [rr|e];
    cbn [mbind result_bind]; [|left; reflexivity].
  destruct (comprehension _ (result_set rr)) as [R|e];
    cbn [mbind result_bind]; [|left; reflexivity].
  right. exists L, R. repeat split; reflexivity.
Qed.

(** X2: [get_schema] takes its error path exactly when [list_labels] or
    [list_relationship_types] would take theirs in the same state. *)
Theorem get_schema_errors_with_enumerations (w : world) :
  errored w (get_schema w).2
  <-> errored w (list_labels w).2 \/ errored w (list_relationship_types w).2.
Proof.
  rewrite list_labels_run, list_relationship_types_run, get_schema_run. cbn zeta.
  pose proof (fun d => errored_debug_only w _ d (log_after_success w d)) as Hok.
  pose proof (fun d m => errored_with_error w _ d m (log_after_failure w d m)) as Hko.
  destruct (selected_graph w) as [g|e]; cbn [mbind result_bind].
  2: { split; [intros _; left|intros _]; apply Hko. }
  destruct (query g "CALL db.labels()") as [lr|e]; cbn [mbind result_bind].
  2: { split; [intros _; left|intros _]; apply Hko. }
  destruct (comprehension _ (result_set lr)) as [L|e]; cbn [mbind result_bind].
  2: { split; [intros _; left|intros _]; apply Hko. }
  destruct (query g "CALL db.relationshipTypes()") as [rr|e]; cbn [mbind result_bind].
  2: { split; [intros _; right|intros _]; apply Hko. }
  destruct (comprehension _ (result_set rr)) as [R|e]; cbn [mbind result_bind].
  2: { split; [intros _; right|intros _]; apply Hko. }
  split.
  - intros H. destruct (Hok _ H).
  - intros [H|H]; destruct (Hok _ H).
Qed.

(** X3: every method appends to the log and never alters what was there:
    it adds its debug record, and at most one error record, which carries
    the method's own prefix and always comes with an empty result. *)
Theorem methods_log_discipline (w : world) (q : string) :
  log_discipline "Listing node labels in FalkorDB database"
    "Error listing labels: " w (list_labels w)
  /\ log_discipline "Listing relationship types in FalkorDB database"
       "Error listing relationship types: " w (list_relationship_types w)
  /\ log_discipline "Retrieving FalkorDB schema"
       "Error getting FalkorDB schema: " w (get_schema w)
  /\ log_discipline ("Running Cypher query: " +:+ q)
       "Error running Cypher query: " w (run_cypher_query q w).
Proof.
  rewrite list_labels_run, list_relationship_types_run, get_schema_run,
    run_cypher_query_run. cbn zeta. unfold log_discipline.
  refine (conj _ (conj _ (conj _ _))); destruct (_ ≫= _) as [v|e]; cbn [fst snd].
  all: try (left; apply log_after_success).
  all: right; exists e; split; [reflexivity | apply log_after_failure].
Qed.

(** X4: when the client raises [e], the error record a method logs is its
    prefix followed by the text of [e]; in [get_schema] the exception of
    the label query is the one reported. *)
Theorem client_error_is_reported (w : world) (q : string) (e : exn) :
  (client_raises w "CALL db.labels()" e ->
   appended w (list_labels w).2
   = [(DEBUG, "Listing node labels in FalkorDB database");
      (ERROR, "Error listing labels: " +:+ str e)]
   /\ appended w (get_schema w).2
      = [(DEBUG, "Retrieving FalkorDB schema");
         (ERROR, "Error getting FalkorDB schema: " +:+ str e)])
  /\ (client_raises w "CALL db.relationshipTypes()" e ->
      appended w (list_relationship_types w).2
      = [(DEBUG, "Listing relationship types in FalkorDB database");
         (ERROR, "Error listing relationship types: " +:+ str e)])
  /\ (client_raises w q e ->
      appended w (run_cypher_query q w).2
      = [(DEBUG, "Running Cypher query: " +:+ q);
         (ERROR, "Error running Cypher query: " +:+ str e)]).
Proof.
  rewrite list_labels_run, list_relationship_types_run, get_schema_run,
    run_cypher_query_run. cbn zeta.
  refine (conj _ (conj _ _)).
  - intros [Hs | (g & Hs & Hq)]; rewrite Hs; cbn [mbind result_bind];
      [|rewrite Hq; cbn [mbind result_bind]];
      split; apply appended_app, log_after_failure.
  - intros [Hs | (g & Hs & Hq)]; rewrite Hs; cbn [mbind result_bind];
      [|rewrite Hq]; apply appended_app, log_after_failure.
  - intros [Hs | (g & Hs & Hq)]; rewrite Hs; cbn [mbind result_bind];
      [|rewrite Hq]; apply appended_app, log_after_failure.
Qed.

(** Against the database on which every query raises "Query failed". *)
Lemma client_error_is_reported_witness :
  appended Scenario.failing (list_labels Scenario.failing).2
  = [(DEBUG, "Listing node labels in FalkorDB database");
     (ERROR, "Error listing labels: Query failed")]
  /\ appended Scenario.failing (run_cypher_query "INVALID QUERY" Scenario.failing).2
     = [(DEBUG, "Running Cypher query: INVALID QUERY");
        (ERROR, "Error running Cypher query: Query failed")].
Proof.
  pose proof (client_error_is_reported Scenario.failing "INVALID QUERY"
                (Exception "Query failed")) as (Hl & _ & Hq).
  assert (forall q', client_raises Scenario.failing q' (Exception "Query failed"))
    as Hraises.
  { intros q'. right. eexists. split; reflexivity. }
  split.
  - exact (proj1 (Hl (Hraises _))).
  - exact (Hq (Hraises _)).
Defined.

(** What a comprehension returns has one element per element it ran over. *)
Lemma comprehension_length {A B} (f : A -> result B) (l : list A) (ys : list B) :
  comprehension f l = Ok ys -> length ys = length l.
Proof.
  revert ys. induction l as [|x l IH]; intros ys; cbn [comprehension].
  - intros [= <-]. reflexivity.
  - destruct (f x) as [y|e]; cbn [mbind result_bind]; [|discriminate].
    destruct (comprehension f l) as [ys'|e]; cbn [mbind result_bind]; [|discriminate].
    intros [= <-]. cbn [length]. f_equal. apply IH. reflexivity.
Qed.

(** The outer loop of [run_cypher_query] appends one record per row. *)
Lemma records_loop_length (columns : list string) (rows : list (list value))
    (data out : list value) :
  for_in rows
    (fun data record => d ← row_dict columns record; Ok (data ++ [VDict d])) data
  = Ok out ->
  length out = length data + length rows.
Proof.
  revert data. induction rows as [|row rows IH]; intros data; cbn [for_in].
  - intros [= <-]. cbn [length]. lia.
  - destruct (row_dict columns row) as [d|e]; cbn [mbind result_bind]; [|discriminate].
    intros Hout. rewrite (IH _ Hout), length_app. cbn [length]. lia.
Qed.

(** X5: a method never returns part of a result: [list_labels],
    [list_relationship_types] and [run_cypher_query] return either the empty
    list or exactly one element per row the query returned. *)
Theorem results_all_or_nothing (w : world) (g : Graph) (q : string) :
  selected_graph w = Ok g ->
  (forall r, query g "CALL db.labels()" = Ok r ->
     exists v, (list_labels w).1 = Ok v
               /\ (v = [] \/ length v = length (result_set r)))
  /\ (forall r, query g "CALL db.relationshipTypes()" = Ok r ->
        exists v, (list_relationship_types w).1 = Ok v
                  /\ (v = [] \/ length v = length (result_set r)))
  /\ (forall r, query g q = Ok r ->
        exists v, (run_cypher_query q w).1 = Ok v
                  /\ (v = [] \/ length v = length (result_set r))).
Proof.
  intros Hg.
  rewrite list_labels_run, list_relationship_types_run, run_cypher_query_run.
  cbn zeta. rewrite Hg. cbn [mbind result_bind].
  refine (conj _ (conj _ _)); intros r ->; cbn [mbind result_bind].
  - destruct (comprehension _ _) as [v|e] eqn:Hv; eexists; (split; [reflexivity|]).
    + right. exact (comprehension_length _ _ _ Hv).
    + left. reflexivity.
  - destruct (comprehension _ _) as [v|e] eqn:Hv; eexists; (split; [reflexivity|]).
    + right. exact (comprehension_length _ _ _ Hv).
    + left. reflexivity.
  - destruct (truthy (header r)).
    + destruct (for_in _ _ _) as [v|e] eqn:Hv; eexists; (split; [reflexivity|]).
      * right. exact (records_loop_length _ _ _ _ Hv).
      * left. reflexivity.
    + eexists. split; [reflexivity|]. right. apply length_fmap.
Qed.

(** Two full rows give two records; a short second row gives none. *)
Lemma results_all_or_nothing_witness :
  (exists v, (run_cypher_query Scenario.people_query Scenario.people).1 = Ok v
             /\ (v = [] \/ length v = 2))
  /\ (exists v, (run_cypher_query Scenario.people_query Scenario.people_short_row).1 = Ok v
                /\ (v = [] \/ length v = 2)).
Proof.
  split.
  - exact (proj2 (proj2 (results_all_or_nothing Scenario.people (Mock.graph _)
             Scenario.people_query eq_refl)) _ eq_refl).
  - exact (proj2 (proj2 (results_all_or_nothing Scenario.people_short_row
             (Mock.graph _) Scenario.people_query eq_refl)) _ eq_refl).
Defined.

(** X6: building the record of a row succeeds exactly when the row has at
    least as many values as the header has names; otherwise it raises
    [IndexError], however the names and values look. *)
Theorem row_dict_succeeds_iff (columns : list string) (record : list value) :
  ((exists d, row_dict columns record = Ok d) <-> length columns <= length record)
  /\ (length record < length columns ->
      row_dict columns record = Raise (IndexError "list index out of range")).
Proof.
  split; [split|].
  - intros [d Hd]. destruct (decide (length columns <= length record)) as [|Hshort];
      [assumption|].
    rewrite row_dict_short in Hd by lia. discriminate Hd.
  - intros Hlong. eexists. apply row_dict_ok, Hlong.
  - apply row_dict_short.
Qed.

(** X7: when the header names are distinct, a record loses nothing of the
    part of the row the header covers: looking the names up in header order
    gives back the first h values of the row. *)
Theorem row_dict_round_trip (columns : list string) (record : list value)
    (d : gmap string value) :
  NoDup columns ->
  row_dict columns record = Ok d ->
  (fun k => d !! k) <$> columns = Some <$> take (length columns) record.
Proof.
  intros Hnodup Hd.
  assert (length columns <= length record) as Hlong.
  { destruct (decide (length columns <= length record)) as [|Hshort]; [assumption|].
    rewrite row_dict_short in Hd by lia. discriminate Hd. }
  rewrite (row_dict_ok _ _ Hlong) in Hd. injection Hd as <-.
  apply list_eq. intros i. rewrite !list_lookup_fmap.
  destruct (columns !! i) as [k|] eqn:Hk; cbn [fmap option_fmap option_map].
  - pose proof (lookup_lt_Some _ _ _ Hk) as Hi.
    rewrite lookup_take_lt by exact Hi.
    rewrite (record_positional columns record i k Hlong Hk).
    + destruct (lookup_lt_is_Some_2 record i ltac:(lia)) as [v ->]. reflexivity.
    + intros j Hj Hjk. pose proof (NoDup_lookup _ _ _ _ Hnodup Hk Hjk). lia.
  - apply lookup_ge_None_1 in Hk.
    rewrite lookup_take_ge by exact Hk. reflexivity.
Qed.

(** The record of ["John", 30, "extra"] under ["name", "age"] gives back
    ["John", 30]. *)
Lemma row_dict_round_trip_witness :
  (fun k => ({[ "name" := VStr "John"; "age" := VInt 30 ]} : gmap string value) !! k)
    <$> ["name"; "age"]
  = Some <$> take 2 [VStr "John"; VInt 30; VStr "extra"].
Proof.
  refine (row_dict_round_trip ["name"; "age"]
            [VStr "John"; VInt 30; VStr "extra"] _ _ eq_refl).
  repeat constructor; [rewrite list_elem_of_singleton; discriminate
                      | apply not_elem_of_nil].
Defined.

(** Cutting a row to the header's length does not change its record. *)
Lemma row_dict_take (columns : list string) (record : list value) :
  row_dict columns (take (length columns) record) = row_dict columns record.
Proof.
  destruct (decide (length columns <= length record)) as [Hlong|Hshort].
  - rewrite (row_dict_ok _ _ Hlong), row_dict_ok by (rewrite length_take; lia).
    do 2 f_equal. apply zip_with_take_r.
  - rewrite take_ge by lia. reflexivity.
Qed.

Lemma records_loop_take (columns : list string) (rows : list (list value))
    (data : list value) :
  for_in (take (length columns) <$> rows)
    (fun data record => d ← row_dict columns record; Ok (data ++ [VDict d])) data
  = for_in rows
      (fun data record => d ← row_dict columns record; Ok (data ++ [VDict d])) data.
Proof.
  revert data. induction rows as [|row rows IH]; intros data; [reflexivity|].
  cbn [fmap list_fmap for_in]. rewrite row_dict_take.
  destruct (row_dict columns row) as [d|e]; cbn [mbind result_bind];
    [apply IH | reflexivity].
Qed.

(** X8: with a header of h names, the values of a row beyond position h
    have no influence on what [run_cypher_query] returns: a result whose
    rows are cut to h values gives the same answer, rows that are too short
    included. *)
Theorem run_cypher_query_ignores_trailing (q : string) (w w' : world)
    (g g' : Graph) (r : QueryResult) (columns : list string) :
  selected_graph w = Ok g ->
  selected_graph w' = Ok g' ->
  query g q = Ok r ->
  header r = Some columns ->
  columns ≠ [] ->
  query g' q
  = Ok {| header := Some columns;
          result_set := take (length columns) <$> result_set r |} ->
  (run_cypher_query q w').1 = (run_cypher_query q w).1.
Proof.
  intros Hg Hg' Hr Hheader Hcolumns Hr'.
  rewrite !run_cypher_query_run. cbn zeta.
  rewrite Hg, Hg'. cbn [mbind result_bind]. rewrite Hr, Hr'. cbn [mbind result_bind].
  cbn [header result_set]. rewrite Hheader.
  destruct columns as [|c columns]; [congruence|].
  cbn [truthy option_truthy list_truthy from_option id].
  rewrite records_loop_take.
  destruct (for_in _ _ _); reflexivity.
Qed.

(** The rows [["John", 30, "extra"], ["Jane", 25]] and the rows
    [["John", 30], ["Jane", 25]] give the same records. *)
Lemma run_cypher_query_ignores_trailing_witness :
  (run_cypher_query "q" (Mock.toolkit (Mock.connection (Mock.graph
     {[ "q" := Scenario.cut_rows ]})))).1
  = (run_cypher_query "q" (Mock.toolkit (Mock.connection (Mock.graph
     {[ "q" := Scenario.long_rows ]})))).1.
Proof.
  refine (run_cypher_query_ignores_trailing "q"
            (Mock.toolkit (Mock.connection (Mock.graph {[ "q" := Scenario.long_rows ]})))
            (Mock.toolkit (Mock.connection (Mock.graph {[ "q" := Scenario.cut_rows ]})))
            (Mock.graph _) (Mock.graph _)
            Scenario.long_rows ["name"; "age"]
            eq_refl eq_refl eq_refl eq_refl _ eq_refl).
  discriminate.
Defined.

(** Column 0 of the rows, as both enumeration tools return it. *)
Lemma enumeration_rows_first_column (w : world) (g : Graph) :
  selected_graph w = Ok g ->
  (forall r, query g "CALL db.labels()" = Ok r ->
     Forall (fun row => row ≠ []) (result_set r) ->
     exists labels,
       (list_labels w).1 = Ok labels
       /\ Forall2 (fun row v => row !! 0%nat = Some v) (result_set r) labels)
  /\ (forall r, query g "CALL db.relationshipTypes()" = Ok r ->
        Forall (fun row => row ≠ []) (result_set r) ->
        exists types,
          (list_relationship_types w).1 = Ok types
          /\ Forall2 (fun row v => row !! 0%nat = Some v) (result_set r) types).
Proof.
  intros Hg.
  rewrite list_labels_run, list_relationship_types_run. cbn zeta.
  rewrite Hg. cbn [mbind result_bind].
  split; intros r -> Hrows; cbn [mbind result_bind];
    destruct (comprehension_first_column _ Hrows) as (column & -> & Hcol);
    exists column; split; [reflexivity | exact Hcol | reflexivity | exact Hcol].
Qed.

(** X9: the two enumeration tools are the one-column case of the query
    tool: when the introspection result has a one-name header [c] and no
    row is empty, running the same query through [run_cypher_query] returns
    the records [{c: x}] for the [x] that the enumeration returns, in the
    same order. *)
Theorem enumeration_is_one_column_query (w : world) (g : Graph) :
  selected_graph w = Ok g ->
  (forall r c,
     query g "CALL db.labels()" = Ok r ->
     header r = Some [c] ->
     Forall (fun row => row ≠ []) (result_set r) ->
     exists labels,
       (list_labels w).1 = Ok labels
       /\ (run_cypher_query "CALL db.labels()" w).1
          = Ok ((fun v => VDict {[ c := v ]}) <$> labels))
  /\ (forall r c,
        query g "CALL db.relationshipTypes()" = Ok r ->
        header r = Some [c] ->
        Forall (fun row => row ≠ []) (result_set r) ->
        exists types,
          (list_relationship_types w).1 = Ok types
          /\ (run_cypher_query "CALL db.relationshipTypes()" w).1
             = Ok ((fun v => VDict {[ c := v ]}) <$> types)).
Proof.
  intros Hg.
  assert (forall (rows : list (list value)) (c : string) (column : list value),
            Forall2 (fun row v => row !! 0%nat = Some v) rows column ->
            VDict <$> ((fun row => dict_of_pairs (zip [c] row)) <$> rows)
            = (fun v => VDict {[ c := v ]}) <$> column) as Hrecords.
  { intros rows c column Hcol. induction Hcol as [|row v rows column Hv _ IH];
      [reflexivity|].
    destruct row as [|v' row]; [discriminate Hv|]. injection Hv as ->.
    cbn [fmap list_fmap]. rewrite <- IH. reflexivity. }
  assert (forall (c : string) (rows : list (list value)),
            Forall (fun row => row ≠ []) rows ->
            Forall (fun row => length [c] <= length row) rows) as Hlong.
  { intros c rows Hrows. eapply Forall_impl; [exact Hrows|].
    intros [|v row] Hrow; [congruence|]. cbn [length]. lia. }
  split; intros r c Hr Hheader Hrows.
  - destruct (proj1 (enumeration_rows_first_column w g Hg) r Hr Hrows)
      as (labels & Hlabels & Hcol).
    exists labels. split; [exact Hlabels|].
    rewrite (run_cypher_query_records _ w g r [c] Hg Hr Hheader);
      [| discriminate | exact (Hlong c _ Hrows)].
    f_equal. apply Hrecords, Hcol.
  - destruct (proj2 (enumeration_rows_first_column w g Hg) r Hr Hrows)
      as (types & Htypes & Hcol).
    exists types. split; [exact Htypes|].
    rewrite (run_cypher_query_records _ w g r [c] Hg Hr Hheader);
      [| discriminate | exact (Hlong c _ Hrows)].
    f_equal. apply Hrecords, Hcol.
Qed.

(** The labels of the movie database, as a list and as records. *)
Lemma enumeration_is_one_column_query_witness :
  exists labels,
    (list_labels Scenario.movies).1 = Ok labels
    /\ (run_cypher_query "CALL db.labels()" Scenario.movies).1
       = Ok ((fun v => VDict {[ "label" := v ]}) <$> labels).
Proof.
  refine (proj1 (enumeration_is_one_column_query Scenario.movies (Mock.graph _)
            eq_refl) _ "label" eq_refl eq_refl _).
  repeat constructor; discriminate.
Defined.

(** ** Further properties of the constructor *)

(** X10: the tools of a constructed toolkit are registered in a fixed
    order (labels, relationship types, schema, query), each at most once,
    under the toolkit name "falkordb_tools", whatever the flags. *)
Theorem tools_registered_in_order (int : string -> result Z)
    (FalkorDB_connect : ConnectionParameters -> result FalkorDB)
    (a : Args.t) (environ : gmap string string) (records records' : list log_record)
    (obj : FalkorDBTools) :
  __init__ int FalkorDB_connect a environ records = (Ok obj, records') ->
  tools obj `sublist_of` registration_order
  /\ NoDup (tools obj)
  /\ name obj = "falkordb_tools".
Proof.
  rewrite init_run.
  destruct (connection_parameters int a environ) as [parameters|e]; [|discriminate].
  destruct (FalkorDB_connect parameters) as [connection|e]; [|discriminate].
  intros [= <- _]. cbn [base tools name Toolkit_init].
  assert (registered_tools a `sublist_of` registration_order) as Hsub.
  { unfold registered_tools, registration_order.
    destruct (Args.all a || Args.enable_list_labels a),
             (Args.all a || Args.enable_list_relationships a),
             (Args.all a || Args.enable_get_schema a),
             (Args.all a || Args.enable_run_cypher a);
      cbn [app]; repeat constructor. }
  assert (NoDup registration_order) as Hnodup.
  { apply (bool_decide_eq_true_1 _). reflexivity. }
  exact (conj Hsub (conj (sublist_NoDup _ _ Hnodup Hsub) eq_refl)).
Qed.

(** The flags of [test_initialization_selective_tools] register the label
    and the query tool, in that order. *)
Lemma tools_registered_in_order_witness :
  exists obj records',
    __init__ Mock.int (Mock.connect Scenario.movies_graph) Scenario.selective ∅ []
    = (Ok obj, records')
    /\ tools obj = [tool_list_labels; tool_run_cypher_query]
    /\ tools obj `sublist_of` registration_order
    /\ NoDup (tools obj)
    /\ name obj = "falkordb_tools".
Proof.
  eexists _, _. split; [reflexivity|]. split; [reflexivity|].
  exact (tools_registered_in_order Mock.int (Mock.connect Scenario.movies_graph)
           Scenario.selective ∅ [] _ _ eq_refl).
Defined.

(** X11: a FALKORDB_PORT (or default) that [int] rejects makes the
    constructor raise that exception before any connection is attempted:
    the outcome does not depend on the client, and, unlike a connection
    failure, nothing is logged. *)
Theorem invalid_port_raises_unlogged (int : string -> result Z)
    (a : Args.t) (environ : gmap string string) (e : exn) :
  truthy (Args.port a) = false ->
  int (getenv_default environ "FALKORDB_PORT" "6379") = Raise e ->
  forall (FalkorDB_connect : ConnectionParameters -> result FalkorDB)
         (records : list log_record),
    __init__ int FalkorDB_connect a environ records = (Raise e, records).
Proof.
  intros Hport Hint FalkorDB_connect records. rewrite init_run.
  unfold connection_parameters, or_else.
  destruct (Args.port a) as [p|].
  - cbn [truthy option_truthy] in Hport. rewrite Hport, Hint. reflexivity.
  - rewrite Hint. reflexivity.
Qed.

(** FALKORDB_PORT=abc: the constructor raises [ValueError], even with a
    client that would connect, and the log stays empty. *)
Lemma invalid_port_raises_unlogged_witness :
  __init__ Mock.int (Mock.connect Scenario.movies_graph) Args.defaults
    Scenario.environ_bad_port []
  = (Raise (ValueError "invalid literal for int() with base 10: 'abc'"), []).
Proof.
  exact (invalid_port_raises_unlogged Mock.int Args.defaults
           Scenario.environ_bad_port _ eq_refl eq_refl
           (Mock.connect Scenario.movies_graph) []).
Defined.

(** [x or fallback] is empty only when the environment variable is. *)
Lemma or_default_empty (x : option string) (environ : gmap string string)
    (key default : string) :
  default ≠ "" ->
  or_default x (getenv_default environ key default) = "" ->
  environ !! key = Some "".
Proof.
  intros Hdefault. unfold or_default, getenv_default.
  assert (forall s : string, truthy s = true -> s ≠ "") as Htruthy.
  { intros s Hs ->. discriminate Hs. }
  destruct x as [s|]; [destruct (truthy s) eqn:Hs|].
  - intros ->. destruct (Htruthy _ Hs eq_refl).
  - destruct (environ !! key); [intros ->; reflexivity | congruence].
  - destruct (environ !! key); [intros ->; reflexivity | congruence].
Qed.

Lemma or_optional_empty (x : option string) (environ : gmap string string)
    (key : string) :
  or_optional x (getenv environ key) = Some "" ->
  environ !! key = Some "".
Proof.
  unfold or_optional, getenv.
  destruct x as [s|]; cbn [truthy option_truthy];
    [destruct (truthy s) eqn:Hs|]; try (intros H; exact H).
  intros [= ->]. discriminate Hs.
Qed.

(** X12: an empty string or a zero passed as an argument never reaches the
    client or the instance: an empty host, user name, password or graph
    name can only come from an environment variable that is set to the
    empty string, and a port 0 only from [int]. *)
Theorem empty_values_come_from_environment (int : string -> result Z)
    (FalkorDB_connect : ConnectionParameters -> result FalkorDB)
    (a : Args.t) (environ : gmap string string) :
  (forall parameters,
     connection_parameters int a environ = Ok parameters ->
     (host parameters = "" -> environ !! "FALKORDB_HOST" = Some "")
     /\ (port parameters = 0%Z ->
         int (getenv_default environ "FALKORDB_PORT" "6379") = Ok 0%Z)
     /\ (username parameters = Some "" -> environ !! "FALKORDB_USERNAME" = Some "")
     /\ (password parameters = Some "" -> environ !! "FALKORDB_PASSWORD" = Some ""))
  /\ (forall records obj records',
        __init__ int FalkorDB_connect a environ records = (Ok obj, records') ->
        graph_name obj = "" -> environ !! "FALKORDB_GRAPH" = Some "").
Proof.
  split.
  - intros parameters. unfold connection_parameters.
    destruct (or_else _ _) as [p|e] eqn:Hport; cbn [mbind result_bind]; [|discriminate].
    intros [= <-]. cbn [host port username password].
    refine (conj _ (conj _ (conj _ _))).
    + apply or_default_empty. discriminate.
    + intros ->. unfold or_else in Hport.
      destruct (Args.port a) as [p|]; [|exact Hport].
      destruct (truthy p) eqn:Hp; [|exact Hport].
      injection Hport as ->. discriminate Hp.
    + apply or_optional_empty.
    + apply or_optional_empty.
  - intros records obj records'. rewrite init_run.
    destruct (connection_parameters int a environ) as [parameters|e]; [|discriminate].
    destruct (FalkorDB_connect parameters) as [connection|e]; [|discriminate].
    intros [= <- _]. cbn [graph_name]. apply or_default_empty. discriminate.
Qed.

(** FALKORDB_HOST set to the empty string and no host argument: the empty
    host that reaches the client is the environment's. *)
Lemma empty_values_come_from_environment_witness :
  connection_parameters Mock.int Args.defaults {[ "FALKORDB_HOST" := "" ]}
  = Ok {| host := ""; port := 6379; username := None; password := None |}
  /\ ({[ "FALKORDB_HOST" := "" ]} : gmap string string) !! "FALKORDB_HOST" = Some "".
Proof.
  split; [reflexivity|].
  exact (proj1 (proj1 (empty_values_come_from_environment Mock.int
                  (Mock.connect Scenario.movies_graph) Args.defaults
                  {[ "FALKORDB_HOST" := "" ]}) _ eq_refl) eq_refl).
Defined.

(** X13: the graph every method selects is the one resolved at
    construction: when the client connects and knows the graph under the
    resolved name, the constructor returns a toolkit whose [list_labels]
    lists column 0 of that graph's label rows. *)
Theorem constructed_toolkit_lists_resolved_graph (int : string -> result Z)
    (FalkorDB_connect : ConnectionParameters -> result FalkorDB)
    (a : Args.t) (environ : gmap string string) (records : list log_record)
    (parameters : ConnectionParameters) (connection : FalkorDB)
    (n : string) (g : Graph) (r : QueryResult) :
  connection_parameters int a environ = Ok parameters ->
  FalkorDB_connect parameters = Ok connection ->
  spec_precedence (given (Args.graph_name a)) (environ !! "FALKORDB_GRAPH")
    (Some "agno") = Some n ->
  select_graph connection n = Ok g ->
  query g "CALL db.labels()" = Ok r ->
  Forall (fun row => row ≠ []) (result_set r) ->
  exists obj records' labels,
    __init__ int FalkorDB_connect a environ records = (Ok obj, records')
    /\ Forall2 (fun row v => row !! 0%nat = Some v) (result_set r) labels
    /\ forall lg, (list_labels {| self := obj; log := lg |}).1 = Ok labels.
Proof.
  intros Hparameters Hconnect Hname Hg Hr Hrows.
  rewrite <- or_default_precedence in Hname. injection Hname as Hname.
  destruct (comprehension_first_column _ Hrows) as (labels & Hlabels & Hcol).
  eexists _, _, labels. rewrite init_run, Hparameters, Hconnect.
  split; [reflexivity|]. split; [exact Hcol|].
  intros lg. rewrite list_labels_run. cbn zeta. cbn [self db graph_name].
  change (from_option id "agno" (environ !! "FALKORDB_GRAPH"))
    with (getenv_default environ "FALKORDB_GRAPH" "agno") in Hname.
  rewrite Hname, Hg. cbn [mbind result_bind]. rewrite Hr. cbn [mbind result_bind].
  rewrite Hlabels. reflexivity.
Qed.

(** [FalkorDBTools(graph_name="custom_graph")] against a client that knows
    only the graph "custom_graph". *)
Lemma constructed_toolkit_lists_resolved_graph_witness :
  exists obj records' labels,
    __init__ Mock.int
      (fun _ => Ok (Mock.named_connection "custom_graph" Scenario.movies_graph))
      Scenario.mixed Scenario.environ_mixed [] = (Ok obj, records')
    /\ Forall2 (fun row v => row !! 0%nat = Some v)
         [[VStr "Person"]; [VStr "Movie"]] labels
    /\ forall lg, (list_labels {| self := obj; log := lg |}).1 = Ok labels.
Proof.
  refine (constructed_toolkit_lists_resolved_graph Mock.int
            (fun _ => Ok (Mock.named_connection "custom_graph" Scenario.movies_graph))
            Scenario.mixed Scenario.environ_mixed [] _ _ "custom_graph"
            Scenario.movies_graph _ eq_refl eq_refl eq_refl eq_refl eq_refl _).
  repeat constructor; discriminate.
Defined.

(** ** The shape of query results *)

(** The outer loop of [run_cypher_query] only ever appends records. *)
Lemma records_loop_records (columns : list string) (rows : list (list value))
    (data out : list value) :
  for_in rows
    (fun data record => d ← row_dict columns record; Ok (data ++ [VDict d])) data
  = Ok out ->
  Forall is_record data ->
  Forall is_record out.
Proof.
  revert data. induction rows as [|row rows IH]; intros data; cbn [for_in].
  - intros [= <-] Hdata. exact Hdata.
  - destruct (row_dict columns row) as [d|e]; cbn [mbind result_bind]; [|discriminate].
    intros Hout Hdata. apply (IH _ Hout).
    apply Forall_app. split; [exact Hdata|]. repeat constructor.
Qed.

(** X14: [run_cypher_query] never mixes the two shapes: in every state and
    for every query, what it returns is a list of records only or a list of
    raw rows only. *)
Theorem run_cypher_query_homogeneous (q : string) (w : world) :
  exists v,
    (run_cypher_query q w).1 = Ok v
    /\ (Forall is_record v \/ Forall is_raw_row v).
Proof.
  rewrite run_cypher_query_run. cbn zeta.
  destruct (selected_graph w) as [g|e]; cbn [mbind result_bind].
  2: { exists []. split; [reflexivity | left; constructor]. }
  destruct (query g q) as [r|e]; cbn [mbind result_bind].
  2: { exists []. split; [reflexivity | left; constructor]. }
  destruct (truthy (header r)).
  - destruct (for_in _ _ _) as [v|e] eqn:Hv.
    + exists v. split; [reflexivity|]. left.
      apply (records_loop_records _ _ _ _ Hv). constructor.
    + exists []. split; [reflexivity | left; constructor].
  - eexists. split; [reflexivity|]. right.
    apply Forall_fmap, Forall_true. intros row. exact I.
Qed.
